(** * EV battery health prediction API: the validation and
      feature-reconstruction core of [app.py]

    The development embeds three functions of [app.py]:
    - [validate_input] (presence, type and range checks of the five fields),
    - [prepare_features] (the five measurements mapped onto the model's
      ordered feature vector),
    - [predict] (the [/predict] handler that chains them and post-processes
      the model's output).

    Python floats are IEEE-754 binary64 numbers, modelled by the Standard
    Library's [spec_float] with 53 bits of precision; Python integers are
    [Z].  Exceptions are explicit: every fallible operation returns a
    [result].  [prepare_features] reads two module globals and its argument
    and fills a local dictionary; it is written in a state monad over exactly
    those four objects, so that what it reads and what it writes can be
    stated. *)

From Stdlib Require Import ZArith Bool List String Ascii Lia.
From Stdlib Require Import Floats.SpecFloat.
From stdpp Require Import base option list gmap strings.

#[local] Set Warnings "-clear-no-such-hyp".

Open Scope Z_scope.

(* ===================================================================== *)
(** ** Exceptions and fallible computations *)
(* ===================================================================== *)

Inductive exn_kind :=
| TypeError
| ValueError
| OverflowError
| ZeroDivisionError
| KeyError
| OtherError.

(** An exception object: its class and the text [str(e)] gives. *)
Record pyexn := Exn { exn_class : exn_kind; exn_str : string }.

Inductive result (A : Type) :=
| Ok (a : A)
| Raise (e : pyexn).
Arguments Ok {A} a.
Arguments Raise {A} e.

Definition rbind {A B} (r : result A) (k : A -> result B) : result B :=
  match r with
  | Ok a => k a
  | Raise e => Raise e
  end.

Notation "'let?' x ':=' c 'in' k" := (rbind c (fun x => k))
  (at level 10, x name, c at level 100, k at level 200).

Definition is_ok {A} (r : result A) : bool :=
  match r with Ok _ => true | Raise _ => false end.

(* ===================================================================== *)
(** ** Floats: IEEE-754 binary64 *)
(* ===================================================================== *)

Module F64.
Definition prec : Z := 53.
Definition emax : Z := 1024.

Definition add := SFadd prec emax.
Definition sub := SFsub prec emax.
Definition mul := SFmul prec emax.
Definition div := SFdiv prec emax.

Definition compare := SFcompare.

(** The float nearest to an integer (ties to even); an infinity when the
    integer is out of the binary64 range. *)
Definition of_Z (z : Z) : spec_float := binary_normalize prec emax z 0 false.

(** The decimal literal [m * 10^-k]: [m] and [10^k] are exact floats for
    the literals of [app.py], so the correctly rounded quotient is the float
    nearest to the decimal, the one Python's parser yields. *)
Definition lit (m : Z) (k : Z) : spec_float := div (of_Z m) (of_Z (10 ^ k)).

Definition nan : spec_float := S754_nan.

Definition is_nan (f : spec_float) : bool :=
  match f with S754_nan => true | _ => false end.

Definition is_zero (f : spec_float) : bool :=
  match f with S754_zero _ => true | _ => false end.

Definition is_infinite (f : spec_float) : bool :=
  match f with S754_infinity _ => true | _ => false end.
End F64.

Arguments F64.of_Z : simpl never.
Arguments F64.lit : simpl never.
Arguments F64.add : simpl never.
Arguments F64.sub : simpl never.
Arguments F64.mul : simpl never.
Arguments F64.div : simpl never.

(* ===================================================================== *)
(** ** Python values as decoded from JSON *)
(* ===================================================================== *)

(** Python numbers: [int] (unbounded) and [float]. *)
Inductive num :=
| NInt (z : Z)
| NFloat (f : spec_float).

(** A value of the request's JSON object.  Arrays and nested objects are
    kept opaque: the code never looks inside one. *)
Inductive pyval :=
| PNone
| PBool (b : bool)
| PNum (n : num)
| PStr (s : string)
| PList
| PDict.

Definition type_name (v : pyval) : string :=
  match v with
  | PNone => "NoneType"
  | PBool _ => "bool"
  | PNum (NInt _) => "int"
  | PNum (NFloat _) => "float"
  | PStr _ => "str"
  | PList => "list"
  | PDict => "dict"
  end.

(** [bool] is a subclass of [int]: in arithmetic [True] is 1. *)
Definition as_num (v : pyval) : option num :=
  match v with
  | PNum n => Some n
  | PBool b => Some (NInt (Z.b2z b))
  | _ => None
  end.

Definition as_int (v : pyval) : option Z :=
  match v with
  | PNum (NInt z) => Some z
  | PBool b => Some (Z.b2z b)
  | _ => None
  end.

(** [int.__float__]: correctly rounded, [OverflowError] out of range. *)
Definition float_of_int (z : Z) : result spec_float :=
  match F64.of_Z z with
  | S754_infinity _ => Raise (Exn OverflowError "int too large to convert to float")
  | f => Ok f
  end.

Definition to_float (n : num) : result spec_float :=
  match n with
  | NInt z => float_of_int z
  | NFloat f => Ok f
  end.

(** *** Comparisons.  Python compares an [int] with a [float] exactly. *)

Definition Z_float_compare (z : Z) (f : spec_float) : option comparison :=
  match f with
  | S754_nan => None
  | S754_infinity s => Some (if s then Gt else Lt)
  | S754_zero _ => Some (z ?= 0)
  | S754_finite s m e =>
      let v := cond_Zopp s (Zpos m) in
      Some (if 0 <=? e then z ?= v * 2 ^ e else z * 2 ^ (- e) ?= v)
  end.

Definition num_compare (a b : num) : option comparison :=
  match a, b with
  | NInt x, NInt y => Some (x ?= y)
  | NFloat x, NFloat y => F64.compare x y
  | NInt x, NFloat y => Z_float_compare x y
  | NFloat x, NInt y => option_map CompOpp (Z_float_compare y x)
  end.

(** [a < b], [a > b], [a <= b] on numbers; all false when a NaN is involved. *)
Definition num_lt (a b : num) : bool :=
  match num_compare a b with Some Lt => true | _ => false end.
Definition num_gt (a b : num) : bool :=
  match num_compare a b with Some Gt => true | _ => false end.
Definition num_le (a b : num) : bool :=
  match num_compare a b with Some (Lt | Eq) => true | _ => false end.

(** The builtins [max(a, b)] and [min(a, b)]: the first argument is kept
    unless the second compares strictly greater (smaller). *)
Definition py_max (a b : num) : num := if num_gt b a then b else a.
Definition py_min (a b : num) : num := if num_lt b a then b else a.

(** *** Arithmetic *)

Definition binop_type_error (op : string) (a b : pyval) : pyexn :=
  Exn TypeError ("unsupported operand type(s) for " ++ op ++ ": '"
                 ++ type_name a ++ "' and '" ++ type_name b ++ "'").

Definition num_sub (a b : num) : result num :=
  match a, b with
  | NInt x, NInt y => Ok (NInt (x - y))
  | _, _ =>
      let? x := to_float a in
      let? y := to_float b in
      Ok (NFloat (F64.sub x y))
  end.

Definition num_add (a b : num) : result num :=
  match a, b with
  | NInt x, NInt y => Ok (NInt (x + y))
  | _, _ =>
      let? x := to_float a in
      let? y := to_float b in
      Ok (NFloat (F64.add x y))
  end.

Definition num_mul (a b : num) : result num :=
  match a, b with
  | NInt x, NInt y => Ok (NInt (x * y))
  | _, _ =>
      let? x := to_float a in
      let? y := to_float b in
      Ok (NFloat (F64.mul x y))
  end.

(** [int / int]: the correctly rounded quotient of the two integers. *)
Definition int_truediv (a b : Z) : result spec_float :=
  if b =? 0 then Raise (Exn ZeroDivisionError "division by zero")
  else if a =? 0 then Ok (S754_zero (b <? 0))
  else
    let '(q, e, l) := SFdiv_core_binary F64.prec F64.emax (Z.abs a) 0 (Z.abs b) 0 in
    match binary_round_aux F64.prec F64.emax (xorb (a <? 0) (b <? 0)) q e l with
    | S754_infinity _ =>
        Raise (Exn OverflowError "integer division result too large for a float")
    | f => Ok f
    end.

Definition num_truediv (a b : num) : result spec_float :=
  match a, b with
  | NInt x, NInt y => int_truediv x y
  | _, _ =>
      let? x := to_float a in
      let? y := to_float b in
      if F64.is_zero y then Raise (Exn ZeroDivisionError "float division by zero")
      else Ok (F64.div x y)
  end.

(** [a - b] on values: defined on numbers only. *)
Definition py_sub (a b : pyval) : result num :=
  match as_num a, as_num b with
  | Some x, Some y => num_sub x y
  | _, _ => Raise (binop_type_error "-" a b)
  end.

(** [a / b] on values: defined on numbers only. *)
Definition py_truediv (a b : pyval) : result spec_float :=
  match as_num a, as_num b with
  | Some x, Some y => num_truediv x y
  | _, _ => Raise (binop_type_error "/" a b)
  end.

Definition str_repeat (s : string) (n : Z) : string :=
  String.concat EmptyString (repeat s (Z.to_nat n)).

(** [a * b] on values: numbers multiply, a string or a list is repeated by
    an integer, anything else is a [TypeError]. *)
Definition py_mul (a b : pyval) : result pyval :=
  match as_num a, as_num b with
  | Some x, Some y => let? p := num_mul x y in Ok (PNum p)
  | _, _ =>
      match a, as_int b, as_int a, b with
      | PStr s, Some n, _, _ => Ok (PStr (str_repeat s n))
      | _, _, Some n, PStr s => Ok (PStr (str_repeat s n))
      | PList, Some _, _, _ => Ok PList
      | _, _, Some _, PList => Ok PList
      | (PStr _ | PList), _, _, _ =>
          Raise (Exn TypeError ("can't multiply sequence by non-int of type '"
                                ++ type_name b ++ "'"))
      | _, _, _, (PStr _ | PList) =>
          Raise (Exn TypeError ("can't multiply sequence by non-int of type '"
                                ++ type_name a ++ "'"))
      | _, _, _, _ => Raise (binop_type_error "*" a b)
      end
  end.

Arguments float_of_int : simpl never.
Arguments num_add : simpl never.
Arguments num_sub : simpl never.
Arguments num_mul : simpl never.
Arguments num_truediv : simpl never.
Arguments num_compare : simpl never.
Arguments py_max : simpl never.
Arguments py_min : simpl never.

(* ===================================================================== *)
(** ** The interpreter state [prepare_features] can reach *)
(* ===================================================================== *)

(** Two module globals ([feature_names], [feature_medians], set once by
    [load_model_and_scaler]), the dictionary object passed as [user_input],
    and the function's local dictionary [features]. *)
Record state := State {
  feature_names : list string;
  feature_medians : gmap string spec_float;
  user_input : gmap string pyval;
  features : gmap string pyval
}.

Definition M (A : Type) : Type := state -> result A * state.

Definition ret {A} (a : A) : M A := fun st => (Ok a, st).

Definition bind {A B} (c : M A) (k : A -> M B) : M B :=
  fun st =>
    match c st with
    | (Ok a, st') => k a st'
    | (Raise e, st') => (Raise e, st')
    end.

Notation "'let!' x ':=' c 'in' k" := (bind c (fun x => k))
  (at level 10, x name, c at level 100, k at level 200).
Notation "c1 '>>' c2" := (bind c1 (fun _ => c2))
  (at level 100, c2 at level 200, right associativity).

(** Reading a global, the argument or the local. *)
Definition gets {A} (f : state -> A) : M A := fun st => (Ok (f st), st).

(** An expression that may raise. *)
Definition lift {A} (r : result A) : M A := fun st => (r, st).

(** [features = d] *)
Definition assign_features (d : gmap string pyval) : M unit :=
  fun st =>
    (Ok tt, {| feature_names := feature_names st;
               feature_medians := feature_medians st;
               user_input := user_input st;
               features := d |}).

(** [features[k] = v] *)
Definition setitem (k : string) (v : pyval) : M unit :=
  fun st =>
    (Ok tt, {| feature_names := feature_names st;
               feature_medians := feature_medians st;
               user_input := user_input st;
               features := <[k := v]> (features st) |}).

(** [if c: body] *)
Definition when (c : bool) (body : M unit) : M unit :=
  if c then body else ret tt.

(** [k in names] for a list and [k in d] for a dictionary. *)
Definition in_list (k : string) (names : list string) : bool :=
  bool_decide (k ∈ names).

Definition in_dict {V} (k : string) (d : gmap string V) : bool :=
  bool_decide (is_Some (d !! k)).

(** [d[k]] *)
Definition getitem (d : gmap string pyval) (k : string) : result pyval :=
  match d !! k with
  | Some v => Ok v
  | None => Raise (Exn KeyError ("'" ++ k ++ "'"))
  end.

(** [d.get(k, dflt)] *)
Definition dict_get {V} (d : gmap string V) (k : string) (dflt : V) : V :=
  default dflt (d !! k).

Definition PFloat (f : spec_float) : pyval := PNum (NFloat f).
Definition PInt (z : Z) : pyval := PNum (NInt z).

(** [{name: feature_medians.get(name, 0.0) for name in feature_names}] *)
Definition median_dict (medians : gmap string spec_float) (names : list string)
  : gmap string pyval :=
  foldl (fun d name => <[name := PFloat (dict_get medians name (F64.of_Z 0))]> d)
        ∅ names.

(** The feature names [app.py] spells out. *)
Definition Exp_Temperature : string := "Exp_Temperature".
Definition Exp_Voltage : string := "Exp_Voltage".
Definition Max_Voltage_Dischar : string := "Max. Voltage Dischar. (V)".
Definition Min_Voltage_Charg : string := "Min. Voltage Charg. (V)".
Definition Exp_Current : string := "Exp_Current".
Definition Cycle_Index : string := "Cycle_Index".
Definition cycle_squared : string := "cycle_squared".
Definition voltage_drop : string := "voltage_drop".
Definition energy_density : string := "energy_density".
Definition Time_constant_current : string := "Time constant current (s)".
Definition temp_deviation : string := "temp_deviation".
Definition Time_at_4_15V : string := "Time at 4.15V (s)".
Definition Exp_Time : string := "Exp_Time".

(** [features.get('Exp_Voltage', features.get('Max. Voltage Dischar. (V)', 3.7))] *)
Definition voltage_value (feats : gmap string pyval) : pyval :=
  dict_get feats Exp_Voltage
           (dict_get feats Max_Voltage_Dischar (PFloat (F64.lit 37 1))).

(** [features.get('Exp_Current', 2.0)] *)
Definition current_value (feats : gmap string pyval) : pyval :=
  dict_get feats Exp_Current (PFloat (F64.of_Z 2)).

(** [features.get('Time constant current (s)', 6000)] *)
Definition time_value (feats : gmap string pyval) : pyval :=
  dict_get feats Time_constant_current (PInt 6000).

Section App.

(** Builtins of the interpreter that are taken as given:
    [float(s)] for a string [s] (the parsed float, or the [ValueError] it
    raises), and [x ** y] on floats (the platform's [pow], with Python's
    [OverflowError]). *)
Variable float_of_str : string -> result spec_float.
Variable float_pow : spec_float -> spec_float -> result spec_float.

(** [float(v)] *)
Definition py_float (v : pyval) : result spec_float :=
  match v with
  | PNum n => to_float n
  | PBool b => Ok (F64.of_Z (Z.b2z b))
  | PStr s => float_of_str s
  | PNone | PList | PDict =>
      Raise (Exn TypeError ("float() argument must be a string or a real number, not '"
                            ++ type_name v ++ "'"))
  end.

(* ------------------------------------------------------------------- *)
(** *** [prepare_features], statement by statement *)
(* ------------------------------------------------------------------- *)

(** [features = {name: feature_medians.get(name, 0.0) for name in feature_names}] *)
Definition init_features : M unit :=
  let! names := gets feature_names in
  let! medians := gets feature_medians in
  assign_features (median_dict medians names).

(** [if 'battery_temperature' in user_input: ...] *)
Definition map_temperature : M unit :=
  let! input := gets user_input in
  let! names := gets feature_names in
  when (in_dict "battery_temperature" input) (
    when (in_list Exp_Temperature names) (
      let! v := lift (getitem input "battery_temperature") in
      setitem Exp_Temperature v)).

(** [if 'voltage' in user_input: ...] *)
Definition map_voltage : M unit :=
  let! input := gets user_input in
  let! names := gets feature_names in
  when (in_dict "voltage" input) (
    let! voltage := lift (getitem input "voltage") in
    when (in_list Exp_Voltage names) (setitem Exp_Voltage voltage) >>
    when (in_list Max_Voltage_Dischar names) (setitem Max_Voltage_Dischar voltage) >>
    when (in_list Min_Voltage_Charg names) (
      let! d := lift (py_sub voltage (PFloat (F64.lit 5 1))) in
      setitem Min_Voltage_Charg (PNum (py_max d (NFloat (F64.of_Z 3)))))).

(** [if 'current' in user_input: ...] *)
Definition map_current : M unit :=
  let! input := gets user_input in
  let! names := gets feature_names in
  when (in_dict "current" input) (
    when (in_list Exp_Current names) (
      let! v := lift (getitem input "current") in
      setitem Exp_Current v)).

(** [if 'charging_cycles' in user_input: ...] *)
Definition map_cycles : M unit :=
  let! input := gets user_input in
  let! names := gets feature_names in
  when (in_dict "charging_cycles" input) (
    let! raw := lift (getitem input "charging_cycles") in
    let! cycles := lift (py_float raw) in
    when (in_list Cycle_Index names) (setitem Cycle_Index (PFloat cycles)) >>
    when (in_list cycle_squared names) (
      let! sq := lift (float_pow cycles (F64.of_Z 2)) in
      setitem cycle_squared (PFloat sq))).

(** [if 'voltage_drop' in feature_names: ...] *)
Definition derive_voltage_drop : M unit :=
  let! names := gets feature_names in
  when (in_list voltage_drop names) (
    let! feats := gets features in
    when (in_dict Max_Voltage_Dischar feats && in_dict Min_Voltage_Charg feats) (
      let! hi := lift (getitem feats Max_Voltage_Dischar) in
      let! lo := lift (getitem feats Min_Voltage_Charg) in
      let! d := lift (py_sub hi lo) in
      setitem voltage_drop (PNum d))).

(** [if 'energy_density' in feature_names: ...].  [current_val] is
    fetched and never used. *)
Definition derive_energy_density : M unit :=
  let! names := gets feature_names in
  when (in_list energy_density names) (
    let! feats := gets features in
    let voltage_val := voltage_value feats in
    let current_val := current_value feats in
    let time_val := time_value feats in
    let! p := lift (py_mul voltage_val time_val) in
    setitem energy_density p).

(** [if 'temp_deviation' in feature_names and 'Exp_Temperature' in features: ...] *)
Definition derive_temp_deviation : M unit :=
  let! names := gets feature_names in
  let! feats := gets features in
  when (in_list temp_deviation names && in_dict Exp_Temperature feats) (
    let temp_mean := PFloat (F64.of_Z 26) in
    let! t := lift (getitem feats Exp_Temperature) in
    let! d := lift (py_sub t temp_mean) in
    setitem temp_deviation (PNum d)).

(** [if 'state_of_charge' in user_input: ...] *)
Definition map_state_of_charge : M unit :=
  let! input := gets user_input in
  let! names := gets feature_names in
  when (in_dict "state_of_charge" input) (
    let! raw := lift (getitem input "state_of_charge") in
    let! soc := lift (py_truediv raw (PFloat (F64.of_Z 100))) in
    when (in_list Time_at_4_15V names) (
      let! scaled := lift (num_mul (NFloat soc) (NInt 1000)) in
      let! est := lift (num_add (NInt 5000) scaled) in
      setitem Time_at_4_15V (PNum est))).

(** [if 'Exp_Time' in feature_names: ...] *)
Definition estimate_exp_time : M unit :=
  let! names := gets feature_names in
  let! input := gets user_input in
  when (in_list Exp_Time names) (
    when (in_dict "charging_cycles" input) (
      let! raw := lift (getitem input "charging_cycles") in
      let! cycles := lift (py_float raw) in
      let! t := lift (num_mul (NFloat cycles) (NInt 10000)) in
      setitem Exp_Time (PNum t))).

(** [[features.get(name, feature_medians.get(name, 0.0)) for name in
    feature_names]]: the row that [np.array(...).reshape(1, -1)] wraps.
    The wrapping (and numpy's choice of element type) is not modelled. *)
Definition feature_array : M (list pyval) :=
  let! names := gets feature_names in
  let! feats := gets features in
  let! medians := gets feature_medians in
  ret (map (fun name =>
              dict_get feats name (PFloat (dict_get medians name (F64.of_Z 0))))
           names).

Definition prepare_features : M (list pyval) :=
  init_features >>
  map_temperature >>
  map_voltage >>
  map_current >>
  map_cycles >>
  derive_voltage_drop >>
  derive_energy_density >>
  derive_temp_deviation >>
  map_state_of_charge >>
  estimate_exp_time >>
  feature_array.

(* ------------------------------------------------------------------- *)
(** *** [validate_input] *)
(* ------------------------------------------------------------------- *)

Definition required_fields : list string :=
  ["battery_temperature"; "voltage"; "current"; "charging_cycles";
   "state_of_charge"]%string.

(** [except (ValueError, TypeError) as e: return False, f"Invalid data type: {str(e)}"] *)
Definition except_value_or_type_error
    (r : result (bool * option string)) : result (bool * option string) :=
  match r with
  | Raise (Exn (ValueError | TypeError) msg as e) =>
      Ok (false, Some ("Invalid data type: " ++ exn_str e)%string)
  | _ => r
  end.

Definition validate_input (data : gmap string pyval)
  : result (bool * option string) :=
  let missing_fields :=
    List.filter (fun field => negb (in_dict field data)) required_fields in
  if negb (bool_decide (missing_fields = [])) then
    Ok (false,
        Some ("Missing required fields: " ++ String.concat ", " missing_fields)%string)
  else
    except_value_or_type_error (
      let? raw := getitem data "battery_temperature" in
      let? temp := py_float raw in
      if num_lt (NFloat temp) (NInt (-20)) || num_gt (NFloat temp) (NInt 60) then
        Ok (false, Some "battery_temperature must be between -20 and 60°C"%string)
      else
      let? raw := getitem data "voltage" in
      let? voltage := py_float raw in
      if num_lt (NFloat voltage) (NFloat (F64.lit 25 1))
         || num_gt (NFloat voltage) (NFloat (F64.lit 45 1)) then
        Ok (false, Some "voltage must be between 2.5 and 4.5V"%string)
      else
      let? raw := getitem data "current" in
      let? current := py_float raw in
      if num_lt (NFloat current) (NInt 0) || num_gt (NFloat current) (NInt 10) then
        Ok (false, Some "current must be between 0 and 10A"%string)
      else
      let? raw := getitem data "charging_cycles" in
      let? cycles := py_float raw in
      if num_lt (NFloat cycles) (NInt 0) || num_gt (NFloat cycles) (NInt 10000) then
        Ok (false, Some "charging_cycles must be between 0 and 10000"%string)
      else
      let? raw := getitem data "state_of_charge" in
      let? soc := py_float raw in
      if num_lt (NFloat soc) (NInt 0) || num_gt (NFloat soc) (NInt 100) then
        Ok (false, Some "state_of_charge must be between 0 and 100"%string)
      else
      Ok (true, None)).

(* ------------------------------------------------------------------- *)
(** *** [predict], the [/predict] handler *)
(* ------------------------------------------------------------------- *)

(** The loaded scaler and model are opaque: [scaler.transform(x)] and
    [model.predict(x)[0]], each of which may raise; [None] until loaded.
    [round(x, 2)] is the builtin. *)
Variable ndarray : Type.
Variable scaler : option (list pyval -> result ndarray).
Variable model : option (ndarray -> result pyval).
Variable py_round : num -> Z -> num.

Record request := Request {
  is_json : bool;
  get_json : result (option (gmap string pyval))
}.

Inductive payload :=
| ErrorPayload (error : option string)
| SuccessPayload (predicted_rul battery_health_percentage : num)
                 (input_data : list (string * pyval)).

Record response := Response { body : payload; status : Z }.

Definition error_response (msg : string) (code : Z) : response :=
  Response (ErrorPayload (Some msg)) code.

(** [rul_prediction = max(0, float(rul_prediction))] *)
Definition floor_rul (raw : spec_float) : num := py_max (NInt 0) (NFloat raw).

(** [min(100, max(0, (rul_prediction / max_rul) * 100))] with [max_rul = 1200] *)
Definition health_percentage (rul_prediction : num) : result num :=
  let max_rul := NInt 1200 in
  let? q := num_truediv rul_prediction max_rul in
  let? pct := num_mul (NFloat q) (NInt 100) in
  Ok (py_min (NInt 100) (py_max (NInt 0) pct)).

Definition predict (names : list string) (medians : gmap string spec_float)
    (req : request) : response :=
  match model, scaler with
  | Some model_predict, Some scaler_transform =>
      let handled : result response :=
        if negb (is_json req) then
          Ok (error_response "Content-Type must be application/json" 400)
        else
        let? data := get_json req in
        match data with
        | None => Ok (error_response "No JSON data provided" 400)
        | Some data =>
            let? checked := validate_input data in
            let '(is_valid, error_message) := checked in
            if negb is_valid then Ok (Response (ErrorPayload error_message) 400)
            else
            match fst (prepare_features (State names medians data ∅)) with
            | Raise e =>
                Ok (error_response ("Error preparing features: " ++ exn_str e) 500)
            | Ok row =>
            match scaler_transform row with
            | Raise e =>
                Ok (error_response ("Error scaling features: " ++ exn_str e) 500)
            | Ok feature_array_scaled =>
            match (let? raw := model_predict feature_array_scaled in
                   let? f := py_float raw in
                   Ok (floor_rul f)) with
            | Raise e =>
                Ok (error_response ("Error making prediction: " ++ exn_str e) 500)
            | Ok rul_prediction =>
                let? battery_health_percentage := health_percentage rul_prediction in
                let? t := getitem data "battery_temperature" in
                let? v := getitem data "voltage" in
                let? c := getitem data "current" in
                let? n := getitem data "charging_cycles" in
                let? s := getitem data "state_of_charge" in
                Ok (Response
                      (SuccessPayload
                         (py_round rul_prediction 2)
                         (py_round battery_health_percentage 2)
                         [("battery_temperature", t); ("voltage", v);
                          ("current", c); ("charging_cycles", n);
                          ("state_of_charge", s)]%string)
                      200)
            end end end
        end in
      match handled with
      | Ok r => r
      | Raise e => error_response ("Unexpected error: " ++ exn_str e) 500
      end
  | _, _ =>
      error_response "Model not loaded. Please ensure model files are available." 500
  end.

End App.

Arguments prepare_features : simpl never.
Arguments validate_input : simpl never.
Arguments py_float : simpl never.
Arguments floor_rul : simpl never.
Arguments health_percentage : simpl never.

(* ===================================================================== *)
(** ** Vocabulary of the statements *)
(* ===================================================================== *)

(** [needle in hay] on strings. *)
Fixpoint contains (needle hay : string) : bool :=
  String.prefix needle hay
  || match hay with
     | EmptyString => false
     | String _ rest => contains needle rest
     end.

(** The documented inclusive range [lo <= x <= hi]; false for a NaN. *)
Definition within (lo hi : num) (x : spec_float) : bool :=
  num_le lo (NFloat x) && num_le (NFloat x) hi.

(** What the code checks of a converted field: neither [x < lo] nor
    [x > hi]. *)
Definition passes (lo hi : num) (x : spec_float) : bool :=
  negb (num_lt (NFloat x) lo || num_gt (NFloat x) hi).

(** The required fields a request body lacks, in the order of
    [required_fields]. *)
Definition absent_fields (data : gmap string pyval) : list string :=
  List.filter (fun field => negb (in_dict field data)) required_fields.


(** The range table of the five required fields. *)
Definition documented_range (field : string) : num * num :=
  if String.eqb field "battery_temperature" then (NInt (-20), NInt 60)
  else if String.eqb field "voltage" then (NFloat (F64.lit 25 1), NFloat (F64.lit 45 1))
  else if String.eqb field "current" then (NInt 0, NInt 10)
  else if String.eqb field "charging_cycles" then (NInt 0, NInt 10000)
  else (NInt 0, NInt 100).

Definition in_documented_range (field : string) (x : spec_float) : bool :=
  within (fst (documented_range field)) (snd (documented_range field)) x.

(** A value that arithmetic accepts: a number (or a bool) that converts to a
    float without overflow. *)
Definition convertible (v : pyval) : Prop :=
  exists n f, as_num v = Some n /\ to_float n = Ok f.

(** What the caller's objects are before and after a call. *)
Definition same_env (st st' : state) : Prop :=
  feature_names st' = feature_names st /\
  feature_medians st' = feature_medians st /\
  user_input st' = user_input st.

(** [c] leaves the globals and the argument alone, and every key of
    [features] it changes is one of [ks] and a catalog name. *)
Definition modifies {A} (ks : list string) (c : M A) : Prop :=
  forall st,
    same_env st (snd (c st)) /\
    forall k,
      features (snd (c st)) !! k = features st !! k \/
      (k ∈ ks /\ k ∈ feature_names st /\ is_Some (features (snd (c st)) !! k)).

(** The row [feature_array] reads off a state. *)
Definition row_of (st : state) : list pyval :=
  map (fun name =>
         dict_get (features st) name
                  (PFloat (dict_get (feature_medians st) name (F64.of_Z 0))))
      (feature_names st).

(** [c], when it returns, returns the row of its final state. *)
Definition returns_row (c : M (list pyval)) : Prop :=
  forall st row st', c st = (Ok row, st') -> row = row_of st'.

(** The statements of [prepare_features] that follow the first one, the
    voltage block and the energy-density block. *)
Definition after_init fos fpow : M (list pyval) :=
  map_temperature >> map_voltage >> map_current >> map_cycles fos fpow >>
  derive_voltage_drop >> derive_energy_density >> derive_temp_deviation >>
  map_state_of_charge >> estimate_exp_time fos >> feature_array.

Definition after_voltage fos fpow : M (list pyval) :=
  map_current >> map_cycles fos fpow >>
  derive_voltage_drop >> derive_energy_density >> derive_temp_deviation >>
  map_state_of_charge >> estimate_exp_time fos >> feature_array.

Definition after_energy_density fos : M (list pyval) :=
  derive_temp_deviation >> map_state_of_charge >> estimate_exp_time fos >>
  feature_array.

(** The keys those statements assign. *)
Definition keys_after_energy_density : list string :=
  [temp_deviation; Time_at_4_15V; Exp_Time].

Definition keys_after_voltage : list string :=
  [Exp_Current; Cycle_Index; cycle_squared; voltage_drop; energy_density]
  ++ keys_after_energy_density.

Definition keys_after_init : list string :=
  [Exp_Temperature; Exp_Voltage; Max_Voltage_Dischar; Min_Voltage_Charg]
  ++ keys_after_voltage.


(** The state the first statement leaves. *)
Definition initialised (st : state) : state :=
  State (feature_names st) (feature_medians st) (user_input st)
        (median_dict (feature_medians st) (feature_names st)).

(** The entries of the working map that later statements compute with hold
    numbers, and the min-charge-voltage entry holds a float. *)
Definition feats_ok (feats : gmap string pyval) : Prop :=
  (forall (k : string) v,
      k ∈ [Exp_Temperature; Exp_Voltage; Max_Voltage_Dischar; Time_constant_current] ->
      feats !! k = Some v -> convertible v) /\
  (forall v, feats !! Min_Voltage_Charg = Some v -> exists f, v = PFloat f).

(** What [prepare_features] needs of its argument in order not to raise:
    the fields it computes with are numbers, and the cycle count converts to
    a float whose square does not overflow. *)
Definition input_ok fos (fpow : spec_float -> spec_float -> result spec_float)
    (data : gmap string pyval) : Prop :=
  (forall v, data !! "battery_temperature" = Some v -> convertible v) /\
  (forall v, data !! "voltage" = Some v -> convertible v) /\
  (forall v, data !! "charging_cycles" = Some v ->
             exists c, py_float fos v = Ok c /\ is_ok (fpow c (F64.of_Z 2)) = true) /\
  (forall v, data !! "state_of_charge" = Some v -> convertible v).






(** [c] returns, and keeps [feats_ok], on an argument that is [input_ok]. *)
Definition runs_ok fos fpow (c : M unit) : Prop :=
  forall st,
    input_ok fos fpow (user_input st) -> feats_ok (features st) ->
    exists st', c st = (Ok tt, st') /\ feats_ok (features st').

(** ** Sample builtins, catalog and requests *)

(** A stand-in for [float(s)] that knows two spellings, ["nan"] and ["3.9"]. *)
Definition sample_float_of_str (s : string) : result spec_float :=
  if String.eqb s "nan" then Ok F64.nan
  else if String.eqb s "3.9" then Ok (F64.lit 39 1)
  else Raise (Exn ValueError ("could not convert string to float: '" ++ s ++ "'")).

(** A stand-in for [x ** 2.0]: one correctly rounded multiplication, with
    Python's [OverflowError] when a finite square overflows.  The exponent
    is ignored: [app.py] only squares. *)
Definition sample_float_pow (x y : spec_float) : result spec_float :=
  let r := F64.mul x x in
  if F64.is_infinite r && negb (F64.is_infinite x) then
    Raise (Exn OverflowError "(34, 'Numerical result out of range')")
  else Ok r.

(** Stand-ins for the loaded scaler and model and for [round]. *)
Definition sample_scaler : option (list pyval -> result unit) :=
  Some (fun _ => Ok tt).

Definition sample_model : option (unit -> result pyval) :=
  Some (fun _ => Ok (PFloat (F64.lit 8505 1))).

Definition sample_round (x : num) (ndigits : Z) : num := x.

Definition mk_input (t v c n s : pyval) : gmap string pyval :=
  <["battery_temperature" := t]> (<["voltage" := v]> (<["current" := c]>
    (<["charging_cycles" := n]> (<["state_of_charge" := s]> ∅)))).

(** The valid sample of [test_api.py]. *)
Definition sample_input : gmap string pyval :=
  mk_input (PFloat (F64.lit 325 1)) (PFloat (F64.lit 39 1)) (PFloat (F64.lit 12 1))
           (PInt 540) (PInt 76).

(** The out-of-range sample of [test_api.py]. *)
Definition out_of_range_input : gmap string pyval :=
  mk_input (PInt 150) (PFloat (F64.lit 39 1)) (PFloat (F64.lit 12 1))
           (PInt 540) (PInt 150).

(** The valid sample with a NaN temperature. *)
Definition nan_temperature_input : gmap string pyval :=
  mk_input (PFloat F64.nan) (PFloat (F64.lit 39 1)) (PFloat (F64.lit 12 1))
           (PInt 540) (PInt 76).

(** Every field a NaN, as the JSON literal [NaN] decodes. *)
Definition nan_floats_input : gmap string pyval :=
  mk_input (PFloat F64.nan) (PFloat F64.nan) (PFloat F64.nan) (PFloat F64.nan)
           (PFloat F64.nan).

(** Every field spelled ["nan"]. *)
Definition nan_strings_input : gmap string pyval :=
  mk_input (PStr "nan") (PStr "nan") (PStr "nan") (PStr "nan") (PStr "nan").

(** The incomplete sample of [test_api.py]: three fields are absent. *)
Definition missing_three_input : gmap string pyval :=
  <["battery_temperature" := PFloat (F64.lit 325 1)]>
    (<["voltage" := PFloat (F64.lit 39 1)]> ∅).

Definition sample_names : list string :=
  [Exp_Temperature; Min_Voltage_Charg; "Charge Time (s)"%string; energy_density;
   cycle_squared; Exp_Time; Time_at_4_15V; voltage_drop; Max_Voltage_Dischar;
   temp_deviation; Exp_Voltage; Cycle_Index; Exp_Current].

Definition sample_medians : gmap string spec_float :=
  <["Charge Time (s)"%string := F64.of_Z 8000]> ∅.

(** The valid sample with the voltage sent as the string ["3.9"]. *)
Definition string_voltage_input : gmap string pyval :=
  mk_input (PFloat (F64.lit 325 1)) (PStr "3.9") (PFloat (F64.lit 12 1))
           (PInt 540) (PInt 76).

Definition sample_state : state :=
  State sample_names sample_medians sample_input ∅.


(* ===================================================================== *)
(** ** Vocabulary of the statements about the five checks and the handler *)
(* ===================================================================== *)

(** How the message of a range check spells the bounds of its field. *)
Definition range_text (field : string) : string :=
  if String.eqb field "battery_temperature" then "-20 and 60°C"
  else if String.eqb field "voltage" then "2.5 and 4.5V"
  else if String.eqb field "current" then "0 and 10A"
  else if String.eqb field "charging_cycles" then "0 and 10000"
  else "0 and 100".

Definition range_message (field : string) : string :=
  field ++ " must be between " ++ range_text field.

(** One check, read as a row of the range table: fetch the field, convert
    it, compare it with its two bounds.  [None] when the check passes. *)
Definition check_field (fos : string -> result spec_float)
    (data : gmap string pyval) (field : string) : result (option string) :=
  let? raw := getitem data field in
  let? x := py_float fos raw in
  if passes (fst (documented_range field)) (snd (documented_range field)) x
  then Ok None
  else Ok (Some (range_message field)).

(** The checks of [fields] in order, stopping at the first that does not
    pass. *)
Fixpoint check_fields (fos : string -> result spec_float)
    (data : gmap string pyval) (fields : list string)
  : result (bool * option string) :=
  match fields with
  | [] => Ok (true, None)
  | field :: rest =>
      let? verdict := check_field fos data field in
      match verdict with
      | Some msg => Ok (false, Some msg)
      | None => check_fields fos data rest
      end
  end.

(** The exception classes the [except] clause of [validate_input] names. *)
Definition value_or_type_error (e : pyexn) : bool :=
  match exn_class e with
  | ValueError | TypeError => true
  | _ => false
  end.

(** The three stages [predict] runs on a body it has accepted, up to the
    floored prediction. *)
Definition predict_stages (fos : string -> result spec_float)
    (fpow : spec_float -> spec_float -> result spec_float) {ndarray : Type}
    (scaler_transform : list pyval -> result ndarray)
    (model_predict : ndarray -> result pyval)
    (names : list string) (medians : gmap string spec_float)
    (data : gmap string pyval) : result num :=
  let? row := fst (prepare_features fos fpow (State names medians data ∅)) in
  let? scaled := scaler_transform row in
  let? raw := model_predict scaled in
  let? f := py_float fos raw in
  Ok (floor_rul f).

(** The message of the 500 answer for a stage that raised. *)
Definition stage_error (fos : string -> result spec_float)
    (fpow : spec_float -> spec_float -> result spec_float) {ndarray : Type}
    (scaler_transform : list pyval -> result ndarray)
    (model_predict : ndarray -> result pyval)
    (names : list string) (medians : gmap string spec_float)
    (data : gmap string pyval) : option string :=
  match fst (prepare_features fos fpow (State names medians data ∅)) with
  | Raise e => Some ("Error preparing features: " ++ exn_str e)%string
  | Ok row =>
      match scaler_transform row with
      | Raise e => Some ("Error scaling features: " ++ exn_str e)%string
      | Ok scaled =>
          match (let? raw := model_predict scaled in py_float fos raw) with
          | Raise e => Some ("Error making prediction: " ++ exn_str e)%string
          | Ok _ => None
          end
      end
  end.

(** The five fields of a body, as the 200 answer echoes them. *)
Definition echoed (data : gmap string pyval) (input : list (string * pyval)) : Prop :=
  map fst input = required_fields /\
  forall field v, In (field, v) input -> data !! field = Some v.

(** The valid sample with a state of charge of 150. *)
Definition high_charge_input : gmap string pyval :=
  mk_input (PFloat (F64.lit 325 1)) (PFloat (F64.lit 39 1)) (PFloat (F64.lit 12 1))
           (PInt 540) (PInt 150).

(** The valid sample with a cycle count too large for a float. *)
Definition huge_int : Z := 10 ^ 400.

Definition huge_cycles_input : gmap string pyval :=
  mk_input (PFloat (F64.lit 325 1)) (PFloat (F64.lit 39 1)) (PFloat (F64.lit 12 1))
           (PInt huge_int) (PInt 76).

(* ===================================================================== *)
(** ** Vocabulary of the statements about the entries of the vector *)
(* ===================================================================== *)

(** The fallback of a catalog name: its median, or 0.0 when it has none. *)
Definition fallback (medians : gmap string spec_float) (name : string) : pyval :=
  PFloat (dict_get medians name (F64.of_Z 0)).









(* ===================================================================== *)
(** ** Start-up: the module globals, [load_model_and_scaler], [health_check] *)
(* ===================================================================== *)

Module Server.

Section Globals.

(** The array type of the scaler's output, as in [predict]. *)
Variable ndarray : Type.

(** The five module globals of [app.py], each [None] until assigned.
    The unpickled model and scaler are the objects [predict] calls.
    [model_info] is the decoded [model_info.json]; the code reads its
    key ['feature_names'] only, so the object is kept as the value under
    that key ([None] when the key is absent), taken to be a list of
    strings. *)
Record globals := Globals {
  model : option (ndarray -> result pyval);
  scaler : option (list pyval -> result ndarray);
  feature_names : option (list string);
  feature_medians : option (gmap string spec_float);
  model_info : option (option (list string))
}.

(** The globals as the module body leaves them. *)
Definition no_globals : globals := Globals None None None None None.

(** The dtype of a column, as far as the code tells them apart. *)
Inductive dtype := Int64 | Float64 | OtherDtype.

(** A column of a frame [pd.read_csv] returns: its name, its dtype, and
    what [median()] gives for it. *)
Record column := Column {
  col_name : string;
  col_dtype : dtype;
  col_median : spec_float
}.

(** What is on disk when the function runs.  A file is absent ([None])
    or there, with what loading it gives: the object, or the exception
    [joblib.load], [json.load] or [pd.read_csv] raises.  The dataset is
    read twice, with [nrows=100] and in full. *)
Record disk := Disk {
  battery_health_model_pkl : option (result (ndarray -> result pyval));
  feature_scaler_pkl : option (result (list pyval -> result ndarray));
  model_info_json : option (result (option (list string)));
  merged_battery_data_csv : option (result (list column) * result (list column))
}.

(** Assignments to globals persist when a later statement raises. *)
Definition G (A : Type) : Type := globals -> result A * globals.

Definition gbind {A B} (c : G A) (k : A -> G B) : G B :=
  fun g =>
    match c g with
    | (Ok a, g') => k a g'
    | (Raise e, g') => (Raise e, g')
    end.

Definition gret {A} (a : A) : G A := fun g => (Ok a, g).

(** An expression that may raise; [raise e] is [glift (Raise e)]. *)
Definition glift {A} (r : result A) : G A := fun g => (r, g).

Definition set_model (v : ndarray -> result pyval) : G unit :=
  fun g => (Ok tt, Globals (Some v) (scaler g) (feature_names g)
                           (feature_medians g) (model_info g)).

Definition set_scaler (v : list pyval -> result ndarray) : G unit :=
  fun g => (Ok tt, Globals (model g) (Some v) (feature_names g)
                           (feature_medians g) (model_info g)).

Definition set_feature_names (v : list string) : G unit :=
  fun g => (Ok tt, Globals (model g) (scaler g) (Some v)
                           (feature_medians g) (model_info g)).

Definition set_feature_medians (v : gmap string spec_float) : G unit :=
  fun g => (Ok tt, Globals (model g) (scaler g) (feature_names g)
                           (Some v) (model_info g)).

Definition set_model_info (v : option (list string)) : G unit :=
  fun g => (Ok tt, Globals (model g) (scaler g) (feature_names g)
                           (feature_medians g) (Some v)).

Definition FileNotFoundError (msg : string) : pyexn := Exn OtherError msg.

(** [exclude_cols = ['RUL', 'Exp_Cell_Type']] *)
Definition exclude_cols : list string := ["RUL"; "Exp_Cell_Type"]%string.

(** [df[col].dtype in [np.int64, np.float64]] *)
Definition is_numeric (t : dtype) : bool :=
  match t with
  | Int64 | Float64 => true
  | OtherDtype => false
  end.

(** [[col for col in df.columns if col not in exclude_cols and
    df[col].dtype in [np.int64, np.float64]]], with the columns kept
    whole. *)
Definition numeric_cols (df : list column) : list column :=
  List.filter (fun col => negb (in_list (col_name col) exclude_cols)
                          && is_numeric (col_dtype col)) df.

(** [df[numeric_cols].median().to_dict()] *)
Definition medians_dict (cols : list column) : gmap string spec_float :=
  foldl (fun d col => <[col_name col := col_median col]> d) ∅ cols.

(** [load_model_and_scaler()].  The [print] calls are left out; the
    [except Exception] clause prints and re-raises, so an exception goes
    through it unchanged. *)
Definition load_model_and_scaler (d : disk) : G unit :=
  gbind (match battery_health_model_pkl d with
         | None =>
             glift (Raise (FileNotFoundError
               "Model file 'battery_health_model.pkl' not found. Please train the model first."))
         | Some loaded => gbind (glift loaded) set_model
         end) (fun _ =>
  gbind (match feature_scaler_pkl d with
         | None =>
             glift (Raise (FileNotFoundError
               "Scaler file 'feature_scaler.pkl' not found. Please train the model first."))
         | Some loaded => gbind (glift loaded) set_scaler
         end) (fun _ =>
  gbind (match model_info_json d with
         | Some loaded =>
             gbind (glift loaded) (fun info =>
             gbind (set_model_info info) (fun _ =>
             set_feature_names (default [] info)))
         | None =>
             match merged_battery_data_csv d with
             | Some (head, _) =>
                 gbind (glift head) (fun df =>
                 set_feature_names (map col_name (numeric_cols df)))
             | None =>
                 glift (Raise (FileNotFoundError
                   "Cannot determine feature names. Please ensure model_info.json exists or dataset is available."))
             end
         end) (fun _ =>
  match merged_battery_data_csv d with
  | Some (_, full) =>
      gbind (glift full) (fun df =>
      set_feature_medians (medians_dict (numeric_cols df)))
  | None => set_feature_medians ∅
  end))).

(** The body of the [/health] answer. *)
Record health := Health {
  health_status : string;
  model_loaded : bool;
  scaler_loaded : bool
}.

(** [health_check()]: the body and the status code. *)
Definition health_check (g : globals) : health * Z :=
  (Health "healthy"
          (bool_decide (is_Some (model g)))
          (bool_decide (is_Some (scaler g))),
   200).

End Globals.

End Server.

Arguments Server.Globals {ndarray}.
Arguments Server.model {ndarray}.
Arguments Server.scaler {ndarray}.
Arguments Server.feature_names {ndarray}.
Arguments Server.feature_medians {ndarray}.
Arguments Server.model_info {ndarray}.
Arguments Server.no_globals {ndarray}.
Arguments Server.Disk {ndarray}.
Arguments Server.battery_health_model_pkl {ndarray}.
Arguments Server.feature_scaler_pkl {ndarray}.
Arguments Server.model_info_json {ndarray}.
Arguments Server.merged_battery_data_csv {ndarray}.
Arguments Server.load_model_and_scaler {ndarray}.
Arguments Server.health_check {ndarray}.

(** ** Vocabulary of the statements about the start-up *)

(** A file that is there and loads. *)
Definition loads {A} (file : option (result A)) : bool :=
  match file with
  | Some (Ok _) => true
  | _ => false
  end.

(** What [load_model_and_scaler] needs of the disk: the model and the
    scaler load; the feature names come from [model_info.json] when that
    file is there (it must then load) and from the first rows of the dataset
    otherwise (it must then be there and readable); and the dataset, when it
    is there, can be read in full. *)
Definition startable {ndarray} (d : Server.disk ndarray) : bool :=
  loads (Server.battery_health_model_pkl d)
  && loads (Server.feature_scaler_pkl d)
  && match Server.model_info_json d, Server.merged_battery_data_csv d with
     | Some info, _ => is_ok info
     | None, Some (head, _) => is_ok head
     | None, None => false
     end
  && match Server.merged_battery_data_csv d with
     | Some (_, full) => is_ok full
     | None => true
     end.

(** The names and dtypes of a frame's columns. *)
Definition schema (df : list Server.column) : list (string * Server.dtype) :=
  map (fun col => (Server.col_name col, Server.col_dtype col)) df.

(** A disk with a model, a scaler and a four-column dataset, and no
    [model_info.json]. *)
Definition sample_frame : list Server.column :=
  [Server.Column Exp_Temperature Server.Float64 (F64.of_Z 26);
   Server.Column "RUL" Server.Int64 (F64.of_Z 600);
   Server.Column "Exp_Cell_Type" Server.OtherDtype F64.nan;
   Server.Column Cycle_Index Server.Int64 (F64.of_Z 300)].

Definition sample_disk : Server.disk unit :=
  Server.Disk (Some (Ok (fun _ => Ok (PFloat (F64.lit 8505 1)))))
              (Some (Ok (fun _ => Ok tt)))
              None
              (Some (Ok sample_frame, Ok sample_frame)).

(** The same disk without the scaler file. *)
Definition no_scaler_disk : Server.disk unit :=
  Server.Disk (Some (Ok (fun _ => Ok (PFloat (F64.lit 8505 1)))))
              None
              None
              (Some (Ok sample_frame, Ok sample_frame)).

(* ===================================================================== *)
(** ** The dashboard, [app_ui.py]: what it shows for a prediction *)
(* ===================================================================== *)

(** [a >= b] on numbers; false when a NaN is involved. *)
Definition num_ge (a b : num) : bool :=
  match num_compare a b with Some (Gt | Eq) => true | _ => false end.

(** A value compared with a number: numbers and booleans compare, anything
    else is a [TypeError]. *)
Definition compare_type_error (op : string) (a : pyval) (b : num) : pyexn :=
  Exn TypeError ("'" ++ op ++ "' not supported between instances of '"
                 ++ type_name a ++ "' and '" ++ type_name (PNum b) ++ "'").

Definition py_gt (a : pyval) (b : num) : result bool :=
  match as_num a with
  | Some x => Ok (num_gt x b)
  | None => Raise (compare_type_error ">" a b)
  end.

Definition py_lt (a : pyval) (b : num) : result bool :=
  match as_num a with
  | Some x => Ok (num_lt x b)
  | None => Raise (compare_type_error "<" a b)
  end.

Definition py_ge (a : pyval) (b : num) : result bool :=
  match as_num a with
  | Some x => Ok (num_ge x b)
  | None => Raise (compare_type_error ">=" a b)
  end.

(** *** [get_health_recommendations] *)

(** The nine messages, as the source spells them. *)
Definition rec_high_temperature : string :=
  "🔥 High temperature detected! Keep battery cool to extend lifespan.".
Definition rec_low_temperature : string :=
  "❄️ Low temperature detected! Battery performance may be reduced.".
Definition rec_low_voltage : string :=
  "⚠️ Low voltage detected! Battery may need charging.".
Definition rec_high_voltage : string :=
  "⚠️ High voltage detected! Monitor battery carefully.".
Definition rec_high_current : string :=
  "⚡ High current draw detected! This may accelerate degradation.".
Definition rec_high_cycles : string :=
  "🔄 High cycle count! Consider battery replacement soon.".
Definition rec_critical : string :=
  "🔴 Battery health is critically low! Consider replacement.".
Definition rec_declining : string :=
  "🟡 Battery health is declining. Monitor closely.".
Definition rec_excellent : string :=
  " Battery health is excellent! Continue proper maintenance.".

(** [get_health_recommendations(data, health_percentage)]: the list is
    built by appending, one test after the other. *)
Definition get_health_recommendations (data : gmap string pyval)
    (health_percentage : pyval) : result (list string) :=
  let recommendations : list string := [] in
  let temp := dict_get data "battery_temperature" (PInt 25) in
  let? hot := py_gt temp (NInt 45) in
  let? recommendations :=
    (if hot then Ok (recommendations ++ [rec_high_temperature])
     else
       let? cold := py_lt temp (NInt 0) in
       Ok (if cold then recommendations ++ [rec_low_temperature]
           else recommendations)) in
  let voltage := dict_get data "voltage" (PFloat (F64.lit 37 1)) in
  let? low := py_lt voltage (NFloat (F64.lit 32 1)) in
  let? recommendations :=
    (if low then Ok (recommendations ++ [rec_low_voltage])
     else
       let? high := py_gt voltage (NFloat (F64.lit 43 1)) in
       Ok (if high then recommendations ++ [rec_high_voltage]
           else recommendations)) in
  let current := dict_get data "current" (PFloat (F64.lit 10 1)) in
  let? drawn := py_gt current (NInt 5) in
  let recommendations :=
    if drawn then recommendations ++ [rec_high_current] else recommendations in
  let cycles := dict_get data "charging_cycles" (PInt 0) in
  let? worn := py_gt cycles (NInt 1000) in
  let recommendations :=
    if worn then recommendations ++ [rec_high_cycles] else recommendations in
  let? critical := py_lt health_percentage (NInt 40) in
  if critical then Ok (recommendations ++ [rec_critical])
  else
    let? declining := py_lt health_percentage (NInt 60) in
    if declining then Ok (recommendations ++ [rec_declining])
    else
      let? excellent := py_ge health_percentage (NInt 80) in
      Ok (if excellent then recommendations ++ [rec_excellent]
          else recommendations).

(** *** [create_battery_health_gauge] and [create_progress_bar] *)

(** One band of the gauge: [{'range': [lo, hi], 'color': c}]. *)
Record gauge_step := GaugeStep { step_range : Z * Z; step_color : string }.

(** The arguments the code hands to [go.Indicator] and [update_layout] that
    depend on the health, and the gauge's axis, bands, threshold and height;
    the other styling constants are left out. *)
Record figure := Figure {
  fig_mode : string;
  fig_value : pyval;
  fig_title_text : string;
  fig_delta_reference : Z;
  fig_axis_range : option Z * Z;
  fig_bar_color : string;
  fig_steps : list gauge_step;
  fig_threshold_value : Z;
  fig_height : Z
}.

(** [create_battery_health_gauge(health_percentage)] *)
Definition create_battery_health_gauge (health_percentage : pyval)
  : result figure :=
  let? chosen :=
    (let? excellent := py_ge health_percentage (NInt 80) in
     if excellent then Ok ("#28a745", "Excellent")
     else
       let? good := py_ge health_percentage (NInt 60) in
       if good then Ok ("#ffc107", "Good")
       else
         let? fair := py_ge health_percentage (NInt 40) in
         if fair then Ok ("#fd7e14", "Fair")
         else Ok ("#dc3545", "Poor"))%string in
  let '(color, status) := chosen in
  Ok (Figure "gauge+number+delta"
             health_percentage
             ("Battery Health: " ++ status)
             100
             (None, 100)
             color
             [GaugeStep (0, 40) "#dc3545";
              GaugeStep (40, 60) "#fd7e14";
              GaugeStep (60, 80) "#ffc107";
              GaugeStep (80, 100) "#28a745"]
             20
             400).

(** The double quote character. *)
Definition dquote : string :=
  String (Ascii.Ascii false true false false false true false false) EmptyString.

(** [create_progress_bar(health_percentage)].  [py_str] is [str(x)] and
    [format_1f] is [format(x, '.1f')], two builtins of the interpreter. *)
Definition create_progress_bar (py_str format_1f : pyval -> string)
    (health_percentage : pyval) : result string :=
  let? color :=
    (let? excellent := py_ge health_percentage (NInt 80) in
     if excellent then Ok "#28a745"
     else
       let? good := py_ge health_percentage (NInt 60) in
       if good then Ok "#ffc107"
       else
         let? fair := py_ge health_percentage (NInt 40) in
         if fair then Ok "#fd7e14"
         else Ok "#dc3545")%string in
  Ok ("
    <div style="
        ++ dquote
        ++ "background-color: #f0f0f0; border-radius: 10px; padding: 3px;"
        ++ dquote
        ++ ">
        <div style="
        ++ dquote
        ++ "background-color: "
        ++ color
        ++ "; width: "
        ++ py_str health_percentage
        ++ "%; 
                    height: 30px; border-radius: 8px; display: flex; 
                    align-items: center; justify-content: center; color: white; 
                    font-weight: bold; transition: width 0.5s;"
        ++ dquote
        ++ ">
            "
        ++ format_1f health_percentage
        ++ "%
        </div>
    </div>
    ")%string.

(** ** Vocabulary of the statements about what the dashboard shows *)

(** A number that is no NaN. *)
Definition ordered (v : pyval) : Prop :=
  exists n, as_num v = Some n /\ match n with
                                 | NFloat f => F64.is_nan f = false
                                 | NInt _ => True
                                 end.

(** The values [get_health_recommendations] compares, with the defaults it
    takes for the fields the dictionary lacks. *)
Definition shown_temperature (data : gmap string pyval) : pyval :=
  dict_get data "battery_temperature" (PInt 25).
Definition shown_voltage (data : gmap string pyval) : pyval :=
  dict_get data "voltage" (PFloat (F64.lit 37 1)).
Definition shown_current (data : gmap string pyval) : pyval :=
  dict_get data "current" (PFloat (F64.lit 10 1)).
Definition shown_cycles (data : gmap string pyval) : pyval :=
  dict_get data "charging_cycles" (PInt 0).

(** The messages about the health, among the nine. *)
Definition health_messages : list string :=
  [rec_critical; rec_declining; rec_excellent].

(** A band of the gauge that holds a value: [lo <= v <= hi]. *)
Definition in_step (v : pyval) (step : gauge_step) : Prop :=
  exists n, as_num v = Some n /\
            num_le (NInt (fst (step_range step))) n = true /\
            num_le n (NInt (snd (step_range step))) = true.

(** [msg in recommendations] *)
Definition mentions (recommendations : list string) (msg : string) : bool :=
  existsb (String.eqb msg) recommendations.

(** The list [get_health_recommendations] builds when the five values it
    compares are the numbers [t], [v], [c], [n] and [h]. *)
Definition advice (t v c n h : num) : list string :=
  (if num_gt t (NInt 45) then [rec_high_temperature]
   else if num_lt t (NInt 0) then [rec_low_temperature] else [])
  ++ (if num_lt v (NFloat (F64.lit 32 1)) then [rec_low_voltage]
      else if num_gt v (NFloat (F64.lit 43 1)) then [rec_high_voltage] else [])
  ++ (if num_gt c (NInt 5) then [rec_high_current] else [])
  ++ (if num_gt n (NInt 1000) then [rec_high_cycles] else [])
  ++ (if num_lt h (NInt 40) then [rec_critical]
      else if num_lt h (NInt 60) then [rec_declining]
      else if num_ge h (NInt 80) then [rec_excellent] else []).

(** A dictionary with a temperature of 50 and 1500 cycles, the other fields
    left to their defaults. *)
Definition hot_worn_input : gmap string pyval :=
  <["battery_temperature" := PInt 50]> (<["charging_cycles" := PInt 1500]> ∅).

(* ===================================================================== *)
(** ** The API over HTTP: the dashboard's client calls and [test_api.py] *)
(* ===================================================================== *)

(** An exception raised by [requests]: what [isinstance] says of it for the
    three classes the callers name, and [str(e)]. *)
Record http_exn := HttpExn {
  is_request_exception : bool;
  is_connection_error : bool;
  is_timeout : bool;
  http_exn_str : string
}.

(** What [response.json()] gives: an exception, a JSON object, or a JSON
    value of another type (named by its Python type). *)
Inductive json_doc :=
| JsonRaises (e : http_exn)
| JObject (fields : gmap string pyval)
| JOther (type : string).

(** What [requests.get] or [requests.post] comes to: an exception, or a
    response with its status code and body. *)
Inductive reply :=
| NoReply (e : http_exn)
| Reply (status_code : Z) (json : json_doc).

(** [jsonify(...)] of the two payloads of [predict]. *)
Definition jsonify (p : payload) : gmap string pyval :=
  match p with
  | ErrorPayload e =>
      <["error" := match e with Some s => PStr s | None => PNone end]>
        (<["status" := PStr "error"]> ∅)
  | SuccessPayload rul pct _ =>
      <["predicted_rul" := PNum rul]>
        (<["battery_health_percentage" := PNum pct]>
           (<["status" := PStr "success"]> (<["input_data" := PDict]> ∅)))
  end.

(** The [/predict] endpoint reached over HTTP with a JSON body: the request
    arrives as sent, with its JSON content type, and the answer comes back
    as sent. *)
Definition http_predict (fos : string -> result spec_float)
    (fpow : spec_float -> spec_float -> result spec_float) (ndarray : Type)
    (scaler : option (list pyval -> result ndarray))
    (model : option (ndarray -> result pyval)) (py_round : num -> Z -> num)
    (names : list string) (medians : gmap string spec_float)
    (data : gmap string pyval) : reply :=
  let r := predict fos fpow ndarray scaler model py_round names medians
                   (Request true (Ok (Some data))) in
  Reply (status r) (JObject (jsonify (body r))).

(** The [/health] endpoint reached over HTTP. *)
Definition http_health {ndarray} (g : Server.globals ndarray) : reply :=
  let '(h, code) := Server.health_check g in
  Reply code
        (JObject (<["status" := PStr (Server.health_status h)]>
                    (<["model_loaded" := PBool (Server.model_loaded h)]>
                       (<["scaler_loaded" := PBool (Server.scaler_loaded h)]> ∅)))).

(** *** The dashboard's two calls *)








(** *** [test_api.py] *)

(** The body of [test_out_of_range_values]. *)
Definition out_of_range_data : gmap string pyval :=
  mk_input (PFloat (F64.lit 1500 1)) (PFloat (F64.lit 39 1)) (PFloat (F64.lit 12 1))
           (PInt 540) (PInt 150).

(** [test_health_check()]: true as soon as the request and the decoding of
    its answer raise nothing; the status code is printed, not tested. *)
Definition test_health_check (get : reply) : bool :=
  match get with
  | NoReply _ | Reply _ (JsonRaises _) => false
  | Reply _ _ => true
  end.

(** The three tests of [/predict]: each posts its body and compares the
    status code with the one it expects. *)
Definition posts_and_expects (post : gmap string pyval -> reply)
    (data : gmap string pyval) (expected : Z) : bool :=
  match post data with
  | NoReply _ | Reply _ (JsonRaises _) => false
  | Reply status_code _ => status_code =? expected
  end.

Definition test_predict (post : gmap string pyval -> reply) : bool :=
  posts_and_expects post sample_input 200.

Definition test_invalid_input (post : gmap string pyval -> reply) : bool :=
  posts_and_expects post missing_three_input 400.

Definition test_out_of_range_values (post : gmap string pyval -> reply) : bool :=
  posts_and_expects post out_of_range_data 400.

(** ** Vocabulary of the statements about the dashboard's request *)


(* ===================================================================== *)
(** ** The state monad *)
(* ===================================================================== *)

Lemma bind_ok {A B} (c : M A) (k : A -> M B) st b st' :
  bind c k st = (Ok b, st') ->
  exists a st1, c st = (Ok a, st1) /\ k a st1 = (Ok b, st').
Proof.
  unfold bind. destruct (c st) as [[a|e] st1]; [eauto | discriminate].
Qed.

Lemma same_env_refl st : same_env st st.
Proof. repeat split. Qed.

Lemma same_env_trans st1 st2 st3 :
  same_env st1 st2 -> same_env st2 st3 -> same_env st1 st3.
Proof.
  unfold same_env. intros (-> & -> & ->) (-> & -> & ->). repeat split.
Qed.

Lemma modifies_mono {A} ks ks' (c : M A) :
  ks ⊆ ks' -> modifies ks c -> modifies ks' c.
Proof.
  intros Hsub Hc st. destruct (Hc st) as [Henv Hk]. split; [exact Henv|].
  intros k. destruct (Hk k) as [?|(? & ? & ?)]; [by left | right].
  split; [by apply Hsub | done].
Qed.

Lemma modifies_bind {A B} ks (c : M A) (k : A -> M B) :
  modifies ks c -> (forall a, modifies ks (k a)) -> modifies ks (bind c k).
Proof.
  intros Hc Hk st. specialize (Hc st). unfold bind.
  destruct (c st) as [[a|e] st1]; simpl in *; [|exact Hc].
  destruct Hc as [Henv1 Hk1]. destruct (Hk a st1) as [Henv2 Hk2].
  split; [by eapply same_env_trans|].
  intros key. destruct (Hk2 key) as [Heq|(? & Hin & ?)].
  - rewrite Heq. destruct (Hk1 key) as [?|(? & ? & ?)]; [by left | by right].
  - right. destruct Henv1 as (Hn & _). rewrite Hn in Hin. done.
Qed.

Lemma returns_row_seq {A} (c : M A) (k : M (list pyval)) :
  returns_row k -> returns_row (bind c (fun _ => k)).
Proof.
  intros Hk st row st' Hrun. apply bind_ok in Hrun as (a & st1 & _ & Hrun).
  by eapply Hk.
Qed.

(* ===================================================================== *)
(** ** What each statement of [prepare_features] touches *)
(* ===================================================================== *)

Lemma median_dict_lookup medians names k :
median_dict medians names !! k =
if decide (k ∈ names)
then Some (PFloat (dict_get medians k (F64.of_Z 0)))
else None.
Proof.
unfold median_dict.
assert (Hgen : forall acc : gmap string pyval,
  foldl (fun d name => <[name := PFloat (dict_get medians name (F64.of_Z 0))]> d)
        acc names !! k =
  if decide (k ∈ names)
  then Some (PFloat (dict_get medians k (F64.of_Z 0)))
  else acc !! k).
{ induction names as [|name names IH]; intros acc; simpl.
  - destruct (decide (k ∈ [])) as [Hin|]; [by apply elem_of_nil in Hin | done].
  - rewrite IH.
    destruct (decide (k ∈ names)) as [Hin|Hnin];
      destruct (decide (k ∈ name :: names)) as [Hin'|Hnin']; try done.
    + exfalso. apply Hnin'. by right.
    + apply elem_of_cons in Hin' as [->|?]; [|done].
      by rewrite lookup_insert_eq.
    + rewrite lookup_insert_ne; [done|].
      intros ->. apply Hnin'. by left. }
rewrite Hgen. by rewrite lookup_empty.
Qed.

(** Symbolic execution of one block: every test and every fallible
    expression is split. *)
Ltac run_block :=
  intros st;
  cbv [bind gets when lift setitem ret assign_features] ;
  repeat match goal with
         | |- context [if ?b then _ else _] => destruct b eqn:?
         | |- context [match ?r with Ok _ => _ | Raise _ => _ end] => destruct r eqn:?
         end;
  simpl.

Ltac frame_key k :=
  repeat match goal with
         | |- context [<[?key := _]> _ !! k] =>
             destruct (decide (k = key)) as [->|];
             [ right; split; [set_solver|]; split;
               [ by eapply bool_decide_eq_true_1
               | rewrite lookup_insert_eq; eauto ]
             | rewrite !(lookup_insert_ne _ key k) by done ]
         end;
  try (left; reflexivity).

Ltac frame := run_block; (split; [by unfold same_env|]); intros k; frame_key k.

Lemma map_temperature_modifies : modifies [Exp_Temperature] map_temperature.
Proof. unfold map_temperature. frame. Qed.

Lemma map_voltage_modifies :
  modifies [Exp_Voltage; Max_Voltage_Dischar; Min_Voltage_Charg] map_voltage.
Proof. unfold map_voltage. frame. Qed.

Lemma map_current_modifies : modifies [Exp_Current] map_current.
Proof. unfold map_current. frame. Qed.

Lemma derive_voltage_drop_modifies : modifies [voltage_drop] derive_voltage_drop.
Proof. unfold derive_voltage_drop. frame. Qed.

Lemma derive_energy_density_modifies :
  modifies [energy_density] derive_energy_density.
Proof. unfold derive_energy_density. frame. Qed.

Lemma derive_temp_deviation_modifies :
  modifies [temp_deviation] derive_temp_deviation.
Proof.
  unfold derive_temp_deviation. run_block; (split; [by unfold same_env|]);
    intros k; try (left; reflexivity).
  destruct (decide (k = temp_deviation)) as [->|];
    [| left; by rewrite lookup_insert_ne].
  right. split; [set_solver|]. split; [|rewrite lookup_insert_eq; eauto].
  match goal with H : _ && _ = true |- _ => apply andb_true_iff in H as [H _] end.
  by eapply bool_decide_eq_true_1.
Qed.

Lemma map_state_of_charge_modifies :
  modifies [Time_at_4_15V] map_state_of_charge.
Proof. unfold map_state_of_charge. frame. Qed.

Lemma feature_array_modifies ks : modifies ks feature_array.
Proof. unfold feature_array. frame. Qed.

Lemma feature_array_returns_row : returns_row feature_array.
Proof.
  intros st row st'. unfold feature_array, bind, gets, ret. simpl.
  by intros [= <- <-].
Qed.

(** Chaining: [b >> rest] modifies what [b] and [rest] modify. *)
Ltac chain lemma :=
  apply modifies_bind;
  [ eapply modifies_mono; [|apply lemma]; set_solver
  | intros _ ].

Lemma map_cycles_modifies float_of_str float_pow :
  modifies [Cycle_Index; cycle_squared] (map_cycles float_of_str float_pow).
Proof. unfold map_cycles. frame. Qed.

Lemma estimate_exp_time_modifies float_of_str :
  modifies [Exp_Time] (estimate_exp_time float_of_str).
Proof. unfold estimate_exp_time. frame. Qed.

Lemma after_energy_density_modifies float_of_str :
  modifies keys_after_energy_density (after_energy_density float_of_str).
Proof.
  unfold after_energy_density.
  chain derive_temp_deviation_modifies.
  chain map_state_of_charge_modifies.
  chain estimate_exp_time_modifies.
  apply feature_array_modifies.
Qed.

Lemma after_voltage_modifies float_of_str float_pow :
  modifies keys_after_voltage (after_voltage float_of_str float_pow).
Proof.
  unfold after_voltage.
  chain map_current_modifies.
  chain map_cycles_modifies.
  chain derive_voltage_drop_modifies.
  chain derive_energy_density_modifies.
  eapply modifies_mono; [|apply after_energy_density_modifies].
  unfold keys_after_voltage. set_solver.
Qed.

Lemma after_init_modifies float_of_str float_pow :
  modifies keys_after_init (after_init float_of_str float_pow).
Proof.
  unfold after_init.
  chain map_temperature_modifies.
  chain map_voltage_modifies.
  eapply modifies_mono; [|apply after_voltage_modifies].
  unfold keys_after_init. set_solver.
Qed.

Lemma after_energy_density_returns_row float_of_str :
  returns_row (after_energy_density float_of_str).
Proof.
  unfold after_energy_density.
  do 3 apply returns_row_seq. apply feature_array_returns_row.
Qed.

Lemma after_voltage_returns_row float_of_str float_pow :
  returns_row (after_voltage float_of_str float_pow).
Proof.
  unfold after_voltage.
  do 4 apply returns_row_seq. apply after_energy_density_returns_row.
Qed.

Lemma after_init_returns_row float_of_str float_pow : returns_row (after_init float_of_str float_pow).
Proof.
  unfold after_init.
  do 2 apply returns_row_seq. apply after_voltage_returns_row.
Qed.

(** The first statement rebuilds [features] from the catalog alone. *)
Lemma prepare_features_unfold float_of_str float_pow st :
  prepare_features float_of_str float_pow st =
  after_init float_of_str float_pow (initialised st).
Proof. reflexivity. Qed.



(** The keys of the working map are the catalog's names, at every point
    after the first statement, whether the call returns or raises. *)
Lemma working_map_keys float_of_str float_pow st k :
  is_Some (features (snd (prepare_features float_of_str float_pow st)) !! k)
  <-> k ∈ feature_names st.
Proof.
  rewrite prepare_features_unfold.
  destruct (after_init_modifies float_of_str float_pow (initialised st)) as [_ Hk].
  specialize (Hk k). simpl in Hk.
  rewrite median_dict_lookup in Hk.
  destruct Hk as [->|(_ & Hin & Hsome)].
  - case_decide as Hd; split; intros Hx; try done; eauto; by destruct Hx.
  - done.
Qed.

Lemma prepare_features_same_env float_of_str float_pow st :
  same_env st (snd (prepare_features float_of_str float_pow st)).
Proof.
  rewrite prepare_features_unfold.
  by destruct (after_init_modifies float_of_str float_pow (initialised st)) as [Henv _].
Qed.

Lemma prepare_features_row float_of_str float_pow st row st' :
  prepare_features float_of_str float_pow st = (Ok row, st') ->
  row = row_of st'.
Proof. rewrite prepare_features_unfold. apply after_init_returns_row. Qed.


(* ===================================================================== *)
(** ** Arithmetic on convertible values never raises *)
(* ===================================================================== *)

Lemma convertible_float f : convertible (PFloat f).
Proof. exists (NFloat f), f. by split. Qed.

Lemma convertible_small_int z :
  F64.is_infinite (F64.of_Z z) = false -> convertible (PInt z).
Proof.
  intros Hfin. exists (NInt z). unfold to_float, float_of_int.
  destruct (F64.of_Z z) eqn:E; try discriminate; eexists; by split.
Qed.

Lemma py_sub_float_r a y :
  convertible a -> exists x, py_sub a (PFloat y) = Ok (NFloat x).
Proof.
  intros (n & f & Hn & Hf). unfold py_sub. rewrite Hn. simpl.
  unfold num_sub. destruct n as [z|x]; simpl in *.
  - rewrite Hf. simpl. eauto.
  - injection Hf as ->. eauto.
Qed.

Lemma py_mul_convertible a b :
  convertible a -> convertible b -> exists p, py_mul a b = Ok p.
Proof.
  intros (n & f & Hn & Hf) (m & g & Hm & Hg). unfold py_mul. rewrite Hn, Hm.
  unfold num_mul. destruct n, m; simpl in *; rewrite ?Hf, ?Hg; simpl; eauto.
Qed.

Lemma py_truediv_hundred a :
  convertible a -> exists q, py_truediv a (PFloat (F64.of_Z 100)) = Ok q.
Proof.
  intros (n & f & Hn & Hf). unfold py_truediv. rewrite Hn. simpl.
  unfold num_truediv. destruct n; simpl in *; rewrite ?Hf; simpl; eauto.
Qed.

Lemma num_mul_float_small x z :
  F64.is_infinite (F64.of_Z z) = false ->
  num_mul (NFloat x) (NInt z) = Ok (NFloat (F64.mul x (F64.of_Z z))).
Proof.
  intros Hfin. unfold num_mul, to_float, float_of_int. simpl.
  by destruct (F64.of_Z z).
Qed.

Lemma num_add_small_float z x :
  F64.is_infinite (F64.of_Z z) = false ->
  num_add (NInt z) (NFloat x) = Ok (NFloat (F64.add (F64.of_Z z) x)).
Proof.
  intros Hfin. unfold num_add, to_float, float_of_int. simpl.
  by destruct (F64.of_Z z).
Qed.

Lemma py_max_float x y : exists z, py_max (NFloat x) (NFloat y) = NFloat z.
Proof. unfold py_max. destruct (num_gt _ _); eauto. Qed.

Lemma in_dict_true {V} (d : gmap string V) k v : d !! k = Some v -> in_dict k d = true.
Proof. intros H. apply bool_decide_eq_true_2. eauto. Qed.

Lemma in_dict_lookup {V} (d : gmap string V) k :
  in_dict k d = true -> exists v, d !! k = Some v.
Proof. intros H. apply bool_decide_eq_true_1 in H as [v Hv]. eauto. Qed.

Lemma in_dict_false {V} (d : gmap string V) k : in_dict k d = false -> d !! k = None.
Proof.
  intros H. apply bool_decide_eq_false_1 in H.
  destruct (d !! k) eqn:E; [|done]. exfalso. apply H. eauto.
Qed.

Lemma in_dict_none {V} (d : gmap string V) k : d !! k = None -> in_dict k d = false.
Proof.
  intros H. apply bool_decide_eq_false_2. rewrite H. by intros [? ?].
Qed.

Lemma getitem_lookup d k v : d !! k = Some v -> getitem d k = Ok v.
Proof. unfold getitem. by intros ->. Qed.

(* ===================================================================== *)
(** ** The invariant of the working map *)
(* ===================================================================== *)

Lemma feats_ok_insert_float feats k x :
  feats_ok feats -> feats_ok (<[k := PFloat x]> feats).
Proof.
  intros [Hconv Hmin]. split.
  - intros key v Hkey. destruct (decide (key = k)) as [->|Hne].
    + rewrite lookup_insert_eq. intros [= <-]. apply convertible_float.
    + rewrite lookup_insert_ne by done. by apply Hconv.
  - intros v. destruct (decide (Min_Voltage_Charg = k)) as [<-|Hne].
    + rewrite lookup_insert_eq. intros [= <-]. eauto.
    + rewrite lookup_insert_ne by done. apply Hmin.
Qed.

Lemma feats_ok_insert_convertible feats k v :
  k <> Min_Voltage_Charg -> convertible v ->
  feats_ok feats -> feats_ok (<[k := v]> feats).
Proof.
  intros Hk Hv [Hconv Hmin]. split.
  - intros key w Hkey. destruct (decide (key = k)) as [->|Hne].
    + rewrite lookup_insert_eq. by intros [= <-].
    + rewrite lookup_insert_ne by done. by apply Hconv.
  - intros w. rewrite lookup_insert_ne by done. apply Hmin.
Qed.

Lemma feats_ok_insert_other feats k v :
  k ∉ [Exp_Temperature; Exp_Voltage; Max_Voltage_Dischar; Time_constant_current;
       Min_Voltage_Charg] ->
  feats_ok feats -> feats_ok (<[k := v]> feats).
Proof.
  intros Hk [Hconv Hmin]. split.
  - intros key w Hkey. rewrite lookup_insert_ne; [by apply Hconv|].
    intros ->. apply Hk. set_solver.
  - intros w. rewrite lookup_insert_ne; [apply Hmin|].
    intros ->. apply Hk. set_solver.
Qed.

Lemma feats_ok_median_dict medians names : feats_ok (median_dict medians names).
Proof.
  split.
  - intros k v _. rewrite median_dict_lookup. case_decide; [|done].
    intros [= <-]. apply convertible_float.
  - intros v. rewrite median_dict_lookup. case_decide; [|done].
    intros [= <-]. eauto.
Qed.

(* ===================================================================== *)
(** ** No statement raises on an argument that is [input_ok] *)
(* ===================================================================== *)

Section Totality.

Variable float_of_str : string -> result spec_float.
Variable float_pow : spec_float -> spec_float -> result spec_float.

Ltac start := intros st (Htemp & Hvolt & Hcyc & Hsoc) Hfeats;
              cbv [bind gets when lift setitem ret]; cbn.

Ltac stop := eexists; split; [reflexivity|]; cbn; try assumption.

Ltac on_input E :=
  match goal with
  | |- context [in_dict ?k (user_input ?st)] =>
      destruct (in_dict k (user_input st)) eqn:E; cbn; [|stop]
  end.

Ltac on_catalog :=
  match goal with
  | |- context [in_list ?k (feature_names ?st)] =>
      destruct (in_list k (feature_names st)); cbn; [|stop]
  end.

Ltac fetch E v Hv :=
  apply in_dict_lookup in E as [v Hv]; rewrite (getitem_lookup _ _ _ Hv); cbn.

Lemma map_temperature_runs : runs_ok float_of_str float_pow map_temperature.
Proof.
  unfold map_temperature. start.
  on_input E.
  on_catalog.
  fetch E v Hv. stop.
  apply feats_ok_insert_convertible; [done | by apply Htemp | done].
Qed.

Lemma map_voltage_runs : runs_ok float_of_str float_pow map_voltage.
Proof.
  unfold map_voltage. start.
  on_input E.
  fetch E v Hv. specialize (Hvolt v Hv).
  destruct (py_sub_float_r v (F64.lit 5 1) Hvolt) as [x Hx].
  destruct (py_max_float x (F64.of_Z 3)) as [z Hz].
  destruct (in_list Exp_Voltage _), (in_list Max_Voltage_Dischar _),
    (in_list Min_Voltage_Charg _); cbn; rewrite ?Hx; cbn; stop;
    rewrite ?Hz;
    repeat first [ apply (feats_ok_insert_float _ Min_Voltage_Charg)
                 | apply feats_ok_insert_convertible; [done | done |] ];
    done.
Qed.

Lemma map_current_runs : runs_ok float_of_str float_pow map_current.
Proof.
  unfold map_current. start.
  on_input E.
  on_catalog.
  fetch E v Hv. stop.
  apply feats_ok_insert_other; [set_solver | done].
Qed.

Lemma map_cycles_runs : runs_ok float_of_str float_pow (map_cycles float_of_str float_pow).
Proof.
  unfold map_cycles. start.
  on_input E.
  fetch E v Hv. destruct (Hcyc v Hv) as (c & -> & Hpow). cbn.
  destruct (float_pow c (F64.of_Z 2)) as [sq|] eqn:Esq; [|discriminate].
  destruct (in_list Cycle_Index _), (in_list cycle_squared _); cbn;
    rewrite ?Esq; cbn; stop;
    repeat (apply feats_ok_insert_other; [set_solver|]); done.
Qed.

Lemma derive_voltage_drop_runs : runs_ok float_of_str float_pow derive_voltage_drop.
Proof.
  unfold derive_voltage_drop. start.
  on_catalog.
  destruct (in_dict Max_Voltage_Dischar _) eqn:Ehi; cbn; [|stop].
  destruct (in_dict Min_Voltage_Charg _) eqn:Elo; cbn; [|stop].
  fetch Ehi hi Hhi. fetch Elo lo Hlo.
  destruct Hfeats as [Hconv Hmin].
  destruct (Hmin lo Hlo) as [y ->].
  assert (Hc : convertible hi) by (eapply Hconv; [|exact Hhi]; set_solver).
  destruct (py_sub_float_r hi y Hc) as [x ->]. cbn. stop.
  apply feats_ok_insert_other; [set_solver | by split].
Qed.

Lemma voltage_value_convertible feats :
  feats_ok feats -> convertible (voltage_value feats).
Proof.
  intros [Hconv _]. unfold voltage_value, dict_get.
  destruct (feats !! Exp_Voltage) as [v|] eqn:E1; cbn.
  { eapply Hconv; [|exact E1]. set_solver. }
  destruct (feats !! Max_Voltage_Dischar) as [v|] eqn:E2; cbn.
  { eapply Hconv; [|exact E2]. set_solver. }
  apply convertible_float.
Qed.

Lemma time_value_convertible feats :
  feats_ok feats -> convertible (time_value feats).
Proof.
  intros [Hconv _]. unfold time_value, dict_get.
  destruct (feats !! Time_constant_current) as [v|] eqn:E1; cbn.
  { eapply Hconv; [|exact E1]. set_solver. }
  by apply convertible_small_int.
Qed.

Lemma derive_energy_density_runs : runs_ok float_of_str float_pow derive_energy_density.
Proof.
  unfold derive_energy_density. start.
  on_catalog.
  destruct (py_mul_convertible _ _ (voltage_value_convertible _ Hfeats)
              (time_value_convertible _ Hfeats)) as [p Hp].
  rewrite Hp. cbn. stop.
  apply feats_ok_insert_other; [set_solver | done].
Qed.

Lemma derive_temp_deviation_runs : runs_ok float_of_str float_pow derive_temp_deviation.
Proof.
  unfold derive_temp_deviation. start.
  on_catalog.
  destruct (in_dict Exp_Temperature _) eqn:E; cbn; [|stop].
  fetch E t Ht.
  assert (Hc : convertible t) by (eapply (proj1 Hfeats); [|exact Ht]; set_solver).
  destruct (py_sub_float_r t (F64.of_Z 26) Hc) as [x ->]. cbn. stop.
  apply feats_ok_insert_other; [set_solver | done].
Qed.

Lemma map_state_of_charge_runs : runs_ok float_of_str float_pow map_state_of_charge.
Proof.
  unfold map_state_of_charge. start.
  on_input E.
  fetch E v Hv.
  destruct (py_truediv_hundred v (Hsoc v Hv)) as [q ->]. cbn.
  on_catalog.
  rewrite num_mul_float_small by reflexivity. cbn.
  rewrite num_add_small_float by reflexivity. cbn. stop.
  apply feats_ok_insert_other; [set_solver | done].
Qed.

Lemma estimate_exp_time_runs : runs_ok float_of_str float_pow (estimate_exp_time float_of_str).
Proof.
  unfold estimate_exp_time. start.
  on_catalog.
  on_input E.
  fetch E v Hv. destruct (Hcyc v Hv) as (c & -> & _). cbn.
  rewrite num_mul_float_small by reflexivity. cbn. stop.
  apply feats_ok_insert_other; [set_solver | done].
Qed.

(** Chaining two statements that run. *)
Lemma runs_seq (b : M unit) (ks : list string) (rest : M (list pyval)) :
  runs_ok float_of_str float_pow b -> modifies ks b ->
  (forall st, input_ok float_of_str float_pow (user_input st) ->
              feats_ok (features st) -> exists row st', rest st = (Ok row, st')) ->
  forall st, input_ok float_of_str float_pow (user_input st) ->
             feats_ok (features st) ->
             exists row st', (b >> rest) st = (Ok row, st').
Proof.
  intros Hb Hmod Hrest st Hin Hf.
  destruct (Hb st Hin Hf) as (st1 & Hrun & Hf1).
  destruct (Hmod st) as [(_ & _ & Hinput) _]. rewrite Hrun in Hinput.
  cbn in Hinput. unfold bind. rewrite Hrun.
  apply Hrest; [by rewrite Hinput | done].
Qed.

Ltac then_runs Hrun Hmod :=
  refine (runs_seq _ _ _ Hrun Hmod _).

Lemma after_init_runs st :
  input_ok float_of_str float_pow (user_input st) -> feats_ok (features st) ->
  exists row st', after_init float_of_str float_pow st = (Ok row, st').
Proof.
  revert st. unfold after_init.
  then_runs map_temperature_runs map_temperature_modifies.
  then_runs map_voltage_runs map_voltage_modifies.
  then_runs map_current_runs map_current_modifies.
  then_runs map_cycles_runs (map_cycles_modifies float_of_str float_pow).
  then_runs derive_voltage_drop_runs derive_voltage_drop_modifies.
  then_runs derive_energy_density_runs derive_energy_density_modifies.
  then_runs derive_temp_deviation_runs derive_temp_deviation_modifies.
  then_runs map_state_of_charge_runs map_state_of_charge_modifies.
  then_runs estimate_exp_time_runs (estimate_exp_time_modifies float_of_str).
  intros st _ _. unfold feature_array, bind, gets, ret. cbn. eauto.
Qed.

Lemma prepare_features_input_ok st :
  input_ok float_of_str float_pow (user_input st) ->
  exists row st', prepare_features float_of_str float_pow st = (Ok row, st').
Proof.
  intros Hin. rewrite prepare_features_unfold.
  apply after_init_runs; [exact Hin | apply feats_ok_median_dict].
Qed.

End Totality.

(* ===================================================================== *)
(** ** Substrings *)
(* ===================================================================== *)

Lemma prefix_app n t : String.prefix n (n ++ t) = true.
Proof.
  induction n as [|a n IH]; simpl; [by destruct t|].
  destruct (ascii_dec a a); [exact IH | done].
Qed.

Lemma prefix_app_l n h t :
  String.prefix n h = true -> String.prefix n (h ++ t) = true.
Proof.
  revert h. induction n as [|a n IH]; intros h; simpl.
  - intros _. by destruct (h ++ t)%string.
  - destruct h as [|b h]; [done|]. simpl.
    destruct (ascii_dec a b); [apply IH | done].
Qed.

Lemma contains_prefix n h : String.prefix n h = true -> contains n h = true.
Proof. intros H. destruct h; cbn [contains]; by rewrite H. Qed.

Lemma contains_here n t : contains n (n ++ t) = true.
Proof. apply contains_prefix, prefix_app. Qed.

Lemma contains_app_r n p h : contains n h = true -> contains n (p ++ h) = true.
Proof.
  intros H. induction p as [|c p IH]; [done|].
  change (String c p ++ h)%string with (String c (p ++ h)).
  cbn [contains]. rewrite IH. apply orb_true_r.
Qed.

Lemma contains_app_l n h t : contains n h = true -> contains n (h ++ t) = true.
Proof.
  induction h as [|c h IH]; cbn [contains].
  - rewrite orb_false_r. intros H. apply contains_prefix.
    by apply (prefix_app_l n EmptyString t).
  - intros H. apply orb_true_iff in H as [H|H].
    + apply contains_prefix. by apply prefix_app_l.
    + change (String c h ++ t)%string with (String c (h ++ t)).
      cbn [contains]. rewrite (IH H). apply orb_true_r.
Qed.

Lemma contains_concat sep f l :
  In f l -> contains f (String.concat sep l) = true.
Proof.
  induction l as [|x l IH]; [done|]. intros [->|Hin].
  - destruct l; simpl.
    + apply contains_prefix. clear. induction f as [|a f IH]; simpl; [done|].
      destruct (ascii_dec a a); [exact IH | done].
    + apply contains_here.
  - destruct l as [|y l]; [done|].
    change (String.concat sep (x :: y :: l))
      with (x ++ sep ++ String.concat sep (y :: l))%string.
    do 2 apply contains_app_r. by apply IH.
Qed.

(* ===================================================================== *)
(** ** Comparisons *)
(* ===================================================================== *)

Lemma SFcompare_antisym x y :
  SFcompare y x = option_map CompOpp (SFcompare x y).
Proof.
  destruct x as [[]|[]| |[] m e], y as [[]|[]| |[] m' e']; simpl; try reflexivity;
    rewrite (Z.compare_antisym e e'); destruct (e ?= e')%Z; simpl; try reflexivity;
    f_equal; change Eq with (CompOpp Eq) at 1;
    rewrite <- Pos.compare_cont_antisym; simpl; by rewrite ?CompOpp_involutive.
Qed.

Lemma num_compare_antisym a b :
  num_compare b a = option_map CompOpp (num_compare a b).
Proof.
  destruct a as [x|x], b as [y|y]; unfold num_compare; simpl.
  - by rewrite (Z.compare_antisym x y).
  - done.
  - destruct (Z_float_compare y x) as [c|]; simpl; [|done].
    by rewrite CompOpp_involutive.
  - apply SFcompare_antisym.
Qed.

Lemma num_lt_false_le a b :
  num_compare a b <> None -> num_lt a b = false -> num_le b a = true.
Proof.
  unfold num_lt, num_le. rewrite (num_compare_antisym a b).
  by destruct (num_compare a b) as [[]|].
Qed.

Lemma num_gt_false_le a b :
  num_compare a b <> None -> num_gt a b = false -> num_le a b = true.
Proof.
  unfold num_gt, num_le. by destruct (num_compare a b) as [[]|].
Qed.

Lemma num_le_not_lt a b : num_le a b = true -> num_lt b a = false.
Proof.
  unfold num_lt, num_le. rewrite (num_compare_antisym a b).
  by destruct (num_compare a b) as [[]|].
Qed.

Lemma num_le_not_gt a b : num_le a b = true -> num_gt a b = false.
Proof.
  unfold num_gt, num_le. by destruct (num_compare a b) as [[]|].
Qed.

Lemma num_gt_le a b : num_gt a b = true -> num_le b a = true.
Proof.
  unfold num_gt, num_le. rewrite (num_compare_antisym a b).
  by destruct (num_compare a b) as [[]|].
Qed.

Lemma num_lt_le a b : num_lt a b = true -> num_le a b = true.
Proof.
  unfold num_lt, num_le. by destruct (num_compare a b) as [[]|].
Qed.

(** A NaN compares with nothing. *)
Lemma num_compare_nan_l b : num_compare (NFloat F64.nan) b = None.
Proof. destruct b as [y|y]; unfold num_compare; simpl; [done | by destruct y]. Qed.

(** The code's check accepts exactly the NaNs and the values in range. *)
Lemma passes_within lo hi x :
  within lo hi x = true -> passes lo hi x = true.
Proof.
  unfold within, passes. intros H. apply andb_true_iff in H as [Hlo Hhi].
  by rewrite (num_le_not_lt _ _ Hlo), (num_le_not_gt _ _ Hhi).
Qed.

Lemma passes_nan lo hi : passes lo hi F64.nan = true.
Proof.
  unfold passes, num_lt, num_gt. rewrite !num_compare_nan_l. reflexivity.
Qed.

Lemma within_nan lo hi : within lo hi F64.nan = false.
Proof.
  unfold within, num_le. rewrite num_compare_nan_l. apply andb_false_r.
Qed.

Lemma passes_inv lo hi x :
  F64.is_nan x = false ->
  num_compare lo (NInt 0) <> None -> num_compare hi (NInt 0) <> None ->
  passes lo hi x = true -> within lo hi x = true.
Proof.
  intros Hx Hlo Hhi Hp. unfold passes in Hp.
  apply negb_true_iff, orb_false_iff in Hp as [H1 H2].
  assert (Hdef : forall b, num_compare b (NInt 0) <> None ->
                           num_compare (NFloat x) b <> None).
  { intros [z|f] Hb; unfold num_compare, F64.compare in *;
      destruct x; try discriminate Hx; try destruct f; simpl in *;
      solve [discriminate | congruence]. }
  unfold within. apply andb_true_iff. split.
  - apply num_lt_false_le; auto.
  - apply num_gt_false_le; auto.
Qed.

(* ===================================================================== *)
(** ** [validate_input] *)
(* ===================================================================== *)

Lemma absent_fields_present data t v c n s :
  data !! "battery_temperature" = Some t -> data !! "voltage" = Some v ->
  data !! "current" = Some c -> data !! "charging_cycles" = Some n ->
  data !! "state_of_charge" = Some s ->
  absent_fields data = [].
Proof.
  intros Ht Hv Hc Hn Hs. unfold absent_fields, required_fields. simpl.
  by rewrite (in_dict_true _ _ _ Ht), (in_dict_true _ _ _ Hv),
    (in_dict_true _ _ _ Hc), (in_dict_true _ _ _ Hn), (in_dict_true _ _ _ Hs).
Qed.

Lemma absent_fields_nil data :
  absent_fields data = [] ->
  exists t v c n s,
    data !! "battery_temperature" = Some t /\ data !! "voltage" = Some v /\
    data !! "current" = Some c /\ data !! "charging_cycles" = Some n /\
    data !! "state_of_charge" = Some s.
Proof.
  unfold absent_fields, required_fields. simpl.
  destruct (in_dict "battery_temperature" data) eqn:Et; [|discriminate].
  destruct (in_dict "voltage" data) eqn:Ev; [|discriminate].
  destruct (in_dict "current" data) eqn:Ec; [|discriminate].
  destruct (in_dict "charging_cycles" data) eqn:En; [|discriminate].
  destruct (in_dict "state_of_charge" data) eqn:Es; [|discriminate].
  intros _.
  apply in_dict_lookup in Et as [t ?], Ev as [v ?], Ec as [c ?], En as [n ?],
    Es as [s ?].
  by exists t, v, c, n, s.
Qed.

Lemma absent_fields_In data field :
  field ∈ required_fields -> data !! field = None -> In field (absent_fields data).
Proof.
  intros Hin Hnone. apply filter_In. split; [by apply list_elem_of_In|].
  unfold in_dict. rewrite bool_decide_eq_false_2; [done|].
  rewrite Hnone. by intros [? ?].
Qed.

Section Validation.

Variable float_of_str : string -> result spec_float.

Lemma validate_input_missing data :
absent_fields data <> [] ->
validate_input float_of_str data =
Ok (false,
    Some ("Missing required fields: " ++ String.concat ", " (absent_fields data))%string).
Proof.
intros Hne. unfold validate_input.
change (List.filter _ required_fields) with (absent_fields data).
by rewrite bool_decide_eq_false_2.
Qed.

Ltac split_check C :=
match goal with
| |- context [except_value_or_type_error (if ?b then _ else _)] =>
    destruct b eqn:C; [discriminate|]
end.

Lemma except_not_accepting e :
except_value_or_type_error (Raise e) <> Ok (true, None).
Proof. destruct e as [[] msg]; discriminate. Qed.

(** [validate_input] returns success exactly when the five fields are
  present, convert to floats, and pass the five checks. *)
Lemma validate_input_accepts_iff data :
validate_input float_of_str data = Ok (true, None) <->
exists t v c n s ft fv fc fn fs,
  (data !! "battery_temperature" = Some t /\ data !! "voltage" = Some v /\
   data !! "current" = Some c /\ data !! "charging_cycles" = Some n /\
   data !! "state_of_charge" = Some s) /\
  (py_float float_of_str t = Ok ft /\ py_float float_of_str v = Ok fv /\ py_float float_of_str c = Ok fc /\ py_float float_of_str n = Ok fn /\
   py_float float_of_str s = Ok fs) /\
  (passes (NInt (-20)) (NInt 60) ft = true /\
   passes (NFloat (F64.lit 25 1)) (NFloat (F64.lit 45 1)) fv = true /\
   passes (NInt 0) (NInt 10) fc = true /\
   passes (NInt 0) (NInt 10000) fn = true /\
   passes (NInt 0) (NInt 100) fs = true).
Proof.
unfold passes. split.
- unfold validate_input.
  change (List.filter _ required_fields) with (absent_fields data).
  destruct (bool_decide (absent_fields data = [])) eqn:E; [|discriminate].
  apply bool_decide_eq_true_1, absent_fields_nil in E
    as (t & v & c & n & s & Ht & Hv & Hc & Hn & Hs).
  cbn [negb]. rewrite !(getitem_lookup _ _ _ Ht), !(getitem_lookup _ _ _ Hv),
    !(getitem_lookup _ _ _ Hc), !(getitem_lookup _ _ _ Hn),
    !(getitem_lookup _ _ _ Hs). cbn [rbind].
  destruct (py_float float_of_str t) as [ft|e] eqn:Eft; cbn [rbind];
    [|intros H; by apply except_not_accepting in H].
  split_check Ct.
  destruct (py_float float_of_str v) as [fv|e] eqn:Efv; cbn [rbind];
    [|intros H; by apply except_not_accepting in H].
  split_check Cv.
  destruct (py_float float_of_str c) as [fc|e] eqn:Efc; cbn [rbind];
    [|intros H; by apply except_not_accepting in H].
  split_check Cc.
  destruct (py_float float_of_str n) as [fn|e] eqn:Efn; cbn [rbind];
    [|intros H; by apply except_not_accepting in H].
  split_check Cn.
  destruct (py_float float_of_str s) as [fs|e] eqn:Efs; cbn [rbind];
    [|intros H; by apply except_not_accepting in H].
  split_check Cs.
  intros _. exists t, v, c, n, s, ft, fv, fc, fn, fs.
  rewrite Ct, Cv, Cc, Cn, Cs. done.
- intros (t & v & c & n & s & ft & fv & fc & fn & fs &
          (Ht & Hv & Hc & Hn & Hs) & (Eft & Efv & Efc & Efn & Efs) &
          (Ct & Cv & Cc & Cn & Cs)).
  apply negb_true_iff in Ct, Cv, Cc, Cn, Cs.
  unfold validate_input.
  change (List.filter _ required_fields) with (absent_fields data).
  rewrite (absent_fields_present _ _ _ _ _ _ Ht Hv Hc Hn Hs).
  rewrite bool_decide_eq_true_2 by done. cbn [negb].
  rewrite !(getitem_lookup _ _ _ Ht), !(getitem_lookup _ _ _ Hv),
    !(getitem_lookup _ _ _ Hc), !(getitem_lookup _ _ _ Hn),
    !(getitem_lookup _ _ _ Hs). cbn [rbind].
  rewrite Eft. cbn [rbind]. rewrite Ct.
  rewrite Efv. cbn [rbind]. rewrite Cv.
  rewrite Efc. cbn [rbind]. rewrite Cc.
  rewrite Efn. cbn [rbind]. rewrite Cn.
  rewrite Efs. cbn [rbind]. rewrite Cs.
  reflexivity.
Qed.

(** The five checks are the range table: a converted value passes the check
  of its field exactly when it is a NaN or in the documented range. *)
Lemma passes_documented field x :
passes (fst (documented_range field)) (snd (documented_range field)) x = true
<-> F64.is_nan x = true \/ in_documented_range field x = true.
Proof.
split.
- intros Hp. destruct (F64.is_nan x) eqn:Hnan; [by left | right].
  unfold in_documented_range. apply passes_inv; try done;
    unfold documented_range;
    repeat (destruct (String.eqb field _)); by vm_compute.
- intros [Hnan|Hin].
  + destruct x; try discriminate. apply passes_nan.
  + by apply passes_within.
Qed.

(** [validate_input] accepts a body exactly when each required field is
  present, converts to a float, and is in its documented range or a NaN. *)
Lemma validate_input_accepts_exactly data :
validate_input float_of_str data = Ok (true, None) <->
forall field,
  field ∈ required_fields ->
  exists raw x,
    data !! field = Some raw /\ py_float float_of_str raw = Ok x /\
    (F64.is_nan x = true \/ in_documented_range field x = true).
Proof.
rewrite validate_input_accepts_iff. split.
- intros (t & v & c & n & s & ft & fv & fc & fn & fs &
          (Ht & Hv & Hc & Hn & Hs) & (Eft & Efv & Efc & Efn & Efs) &
          (Ct & Cv & Cc & Cn & Cs)) field Hin.
  apply list_elem_of_In in Hin. simpl in Hin.
  destruct Hin as [<-|[<-|[<-|[<-|[<-|[]]]]]].
  + exists t, ft. repeat split; try done. by apply passes_documented.
  + exists v, fv. repeat split; try done. by apply passes_documented.
  + exists c, fc. repeat split; try done. by apply passes_documented.
  + exists n, fn. repeat split; try done. by apply passes_documented.
  + exists s, fs. repeat split; try done. by apply passes_documented.
- intros H.
  destruct (H "battery_temperature") as (t & ft & Ht & Eft & Rt); [set_solver|].
  destruct (H "voltage") as (v & fv & Hv & Efv & Rv); [set_solver|].
  destruct (H "current") as (c & fc & Hc & Efc & Rc); [set_solver|].
  destruct (H "charging_cycles") as (n & fn & Hn & Efn & Rn); [set_solver|].
  destruct (H "state_of_charge") as (s & fs & Hs & Efs & Rs); [set_solver|].
  exists t, v, c, n, s, ft, fv, fc, fn, fs.
  split; [done|]. split; [done|].
  apply passes_documented in Rt, Rv, Rc, Rn, Rs. done.
Qed.







End Validation.

(* ===================================================================== *)
(** ** What the voltage and energy-density statements assign *)
(* ===================================================================== *)

Lemma in_list_elem k names : in_list k names = true -> k ∈ names.
Proof. apply bool_decide_eq_true_1. Qed.

Lemma in_list_not_elem k names : in_list k names = false -> k ∉ names.
Proof. apply bool_decide_eq_false_1. Qed.

Lemma row_of_lookup st i name :
  feature_names st !! i = Some name ->
  row_of st !! i =
  Some (dict_get (features st) name
                 (PFloat (dict_get (feature_medians st) name (F64.of_Z 0)))).
Proof.
  unfold row_of. generalize (feature_names st). intros names. revert i.
  induction names as [|x names IH]; intros [|i]; simpl; try done.
  - by intros [= ->].
  - apply IH.
Qed.




(** A key outside [ks] is left as it was. *)
Lemma modifies_other {A} ks (c : M A) st k :
  modifies ks c -> k ∉ ks ->
  features (snd (c st)) !! k = features st !! k.
Proof.
  intros Hc Hk. destruct (Hc st) as [_ Hkeys].
  destruct (Hkeys k) as [?|(? & _)]; done.
Qed.

Lemma modifies_env {A} ks (c : M A) st r st' :
  modifies ks c -> c st = (r, st') -> same_env st st'.
Proof. intros Hc Hrun. destruct (Hc st) as [Henv _]. by rewrite Hrun in Henv. Qed.

Lemma modifies_other_run {A} ks (c : M A) st r st' k :
  modifies ks c -> c st = (r, st') -> k ∉ ks ->
  features st' !! k = features st !! k.
Proof.
  intros Hc Hrun Hk. pose proof (modifies_other ks c st k Hc Hk) as H.
  by rewrite Hrun in H.
Qed.



(* ===================================================================== *)
(** ** The model at work *)
(* ===================================================================== *)

(** The decimal literals are the binary64 numbers Python reads them as:
    3.9 is 0x1.f333333333333p+1, 0.5 is 2^-1, 3.4 is 0x1.b333333333333p+1. *)
Example float_literals :
  F64.lit 39 1 = S754_finite false 8782019273372467 (-51) /\
  F64.lit 5 1 = S754_finite false 4503599627370496 (-53) /\
  F64.lit 34 1 = S754_finite false 7656119366529843 (-51) /\
  F64.sub (F64.lit 39 1) (F64.lit 5 1) = F64.lit 34 1.
Proof. by vm_compute. Qed.

(** The sample of [test_api.py] is accepted, and for 540 cycles the squared
    count is 291600 and the experiment time 5400000. *)
Example sample_run :
  validate_input sample_float_of_str sample_input = Ok (true, None) /\
  exists row,
    fst (prepare_features sample_float_of_str sample_float_pow sample_state)
    = Ok row /\
    row !! 4%nat = Some (PFloat (F64.of_Z 291600)) /\
    row !! 5%nat = Some (PFloat (F64.of_Z 5400000)).
Proof. split; [by vm_compute|]. eexists. by vm_compute. Qed.

(** A field sent as a numeric string passes [validate_input], which
    converts it, and then makes [prepare_features], which does not, raise:
    the handler answers 500.  That is why the statements below that promise
    a vector ask for JSON numbers. *)
Example string_voltage_is_accepted_then_raises :
  validate_input sample_float_of_str string_voltage_input = Ok (true, None) /\
  fst (prepare_features sample_float_of_str sample_float_pow
         (State sample_names sample_medians string_voltage_input ∅))
  = Raise (Exn TypeError "unsupported operand type(s) for -: 'str' and 'float'") /\
  status (predict sample_float_of_str sample_float_pow unit sample_scaler
                  sample_model sample_round sample_names sample_medians
                  (Request true (Ok (Some string_voltage_input)))) = 500.
Proof. by vm_compute. Qed.

(** A NaN temperature goes through to the vector handed to the scaler. *)
Example nan_reaches_the_vector :
  exists row,
    fst (prepare_features sample_float_of_str sample_float_pow
           (State sample_names sample_medians nan_temperature_input ∅))
    = Ok row /\
    row !! 0%nat = Some (PFloat F64.nan).
Proof. eexists. by vm_compute. Qed.

(* ===================================================================== *)
(** ** [prepare_features]: the feature vector *)
(* ===================================================================== *)


(** C6.  Every key of the working map [prepare_features] leaves is a
    catalog name: no statement assigns a key outside the catalog (an
    assignment never removes a key, so an assigned key would still be
    there).  And the vector is read off the catalog's names alone: an entry
    under any other key changes nothing in it. *)
Theorem writes_stay_in_catalog float_of_str float_pow st :
  let st' := snd (prepare_features float_of_str float_pow st) in
  (forall k, is_Some (features st' !! k) <-> k ∈ feature_names st) /\
  (forall k v,
      k ∉ feature_names st ->
      fst (feature_array (State (feature_names st') (feature_medians st')
                                (user_input st') (<[k := v]> (features st'))))
      = fst (feature_array st')).
Proof.
  intros st'. split; [apply working_map_keys|].
  intros k v Hk.
  pose proof (prepare_features_same_env float_of_str float_pow st) as (Hn & _ & _).
  fold st' in Hn.
  unfold feature_array, bind, gets, ret. simpl. f_equal.
  apply map_ext_in. intros name Hin. unfold dict_get.
  rewrite lookup_insert_ne; [done|].
  intros ->. apply Hk. rewrite <- Hn. by apply list_elem_of_In.
Qed.




(* ===================================================================== *)
(** ** [validate_input]: missing fields and ranges *)
(* ===================================================================== *)

(** C2.  When one or more of the five required fields is absent,
    [validate_input] fails, and its message is the fixed prefix followed by
    the absent fields, all of them, separated by commas: every absent field
    is named in it. *)
Theorem missing_fields_all_named float_of_str data :
  (exists field, field ∈ required_fields /\ data !! field = None) ->
  exists msg,
    validate_input float_of_str data = Ok (false, Some msg) /\
    msg = ("Missing required fields: "
           ++ String.concat ", " (absent_fields data))%string /\
    (forall field,
        In field (absent_fields data) <->
        field ∈ required_fields /\ data !! field = None) /\
    (forall field,
        field ∈ required_fields -> data !! field = None ->
        contains field msg = true).
Proof.
  intros (field & Hin & Hnone).
  pose proof (absent_fields_In _ _ Hin Hnone) as Habs.
  eexists. split; [|split; [reflexivity|split]].
  - apply validate_input_missing. intros E. by rewrite E in Habs.
  - intros f. unfold absent_fields. rewrite filter_In, list_elem_of_In.
    split; intros [Hf Hd]; (split; [done|]).
    + apply negb_true_iff in Hd. by apply in_dict_false.
    + unfold in_dict. rewrite bool_decide_eq_false_2; [done|].
      rewrite Hd. by intros [? ?].
  - intros f Hf Hd. apply contains_app_r, contains_concat.
    by apply absent_fields_In.
Qed.

(** C7.  A NaN temperature is outside the documented range of
    [battery_temperature], and [validate_input] accepts the request all the
    same. *)
Theorem nan_temperature_accepted float_of_str :
  validate_input float_of_str nan_temperature_input = Ok (true, None) /\
  nan_temperature_input !! "battery_temperature" = Some (PFloat F64.nan) /\
  in_documented_range "battery_temperature" F64.nan = false.
Proof. by vm_compute. Qed.

(** No branch of [predict] past the validation answers 400. *)
Lemma predict_past_validation
    float_of_str float_pow ndarray scaler_transform model_predict py_round
    names medians data :
  validate_input float_of_str data = Ok (true, None) ->
  status (predict float_of_str float_pow ndarray (Some scaler_transform)
                  (Some model_predict) py_round names medians
                  (Request true (Ok (Some data)))) <> 400.
Proof.
  intros Hvalid. unfold predict. cbn. rewrite Hvalid. cbn.
  destruct (fst (prepare_features float_of_str float_pow
                   (State names medians data ∅))) as [row|e];
    [|cbn; discriminate].
  destruct (scaler_transform row) as [scaled|e]; [|cbn; discriminate].
  destruct (model_predict scaled) as [raw|e]; cbn; [|discriminate].
  destruct (py_float float_of_str raw) as [f|e]; cbn; [|discriminate].
  destruct (health_percentage (floor_rul f)) as [pct|e]; cbn; [|discriminate].
  repeat match goal with
         | |- context [getitem data ?k] =>
             destruct (getitem data k); cbn; [|discriminate]
         end.
  discriminate.
Qed.

(** C10.  There is a request body with the five fields present that
    [validate_input] accepts although a field is outside its documented
    range: a NaN makes both comparisons of its check false.  In general a
    body whose five fields are present and convert to floats is accepted as
    soon as each converted value is in its range or is a NaN, whichever
    fields the NaNs are in; the handler then goes on to [prepare_features]
    instead of answering 400. *)
Theorem nan_fields_pass_validation float_of_str :
  (exists data,
      validate_input float_of_str data = Ok (true, None) /\
      forall field,
        field ∈ required_fields ->
        exists raw x,
          data !! field = Some raw /\ py_float float_of_str raw = Ok x /\
          F64.is_nan x = true /\ in_documented_range field x = false) /\
  (forall lo hi,
      num_lt (NFloat F64.nan) lo = false /\ num_gt (NFloat F64.nan) hi = false) /\
  (forall data,
      (forall field,
          field ∈ required_fields ->
          exists raw x,
            data !! field = Some raw /\ py_float float_of_str raw = Ok x /\
            (F64.is_nan x = true \/ in_documented_range field x = true)) ->
      validate_input float_of_str data = Ok (true, None) /\
      forall float_pow ndarray scaler_transform model_predict py_round names
             medians,
        status (predict float_of_str float_pow ndarray (Some scaler_transform)
                        (Some model_predict) py_round names medians
                        (Request true (Ok (Some data)))) <> 400).
Proof.
  split; [|split].
  - exists nan_floats_input. split; [by vm_compute|].
    intros field Hin. apply list_elem_of_In in Hin. simpl in Hin.
    exists (PFloat F64.nan), F64.nan.
    destruct Hin as [<-|[<-|[<-|[<-|[<-|[]]]]]]; by vm_compute.
  - intros lo hi. unfold num_lt, num_gt. by rewrite !num_compare_nan_l.
  - intros data H. apply validate_input_accepts_exactly in H.
    split; [exact H|]. intros. by apply predict_past_validation.
Qed.

(* ===================================================================== *)
(** ** [predict]: the out-of-range sample and the post-processing *)
(* ===================================================================== *)

(** C1, as amended.  For the out-of-range sample the handler answers 400
    with the message of the first failing check, the temperature one, and
    nothing about [state_of_charge]. *)
Theorem out_of_range_reports_first_field
    float_of_str float_pow ndarray scaler_transform model_predict py_round
    names medians :
  predict float_of_str float_pow ndarray (Some scaler_transform)
          (Some model_predict) py_round names medians
          (Request true (Ok (Some out_of_range_input)))
  = Response
      (ErrorPayload (Some "battery_temperature must be between -20 and 60°C"%string))
      400
  /\ contains "state_of_charge"
              "battery_temperature must be between -20 and 60°C" = false.
Proof.
  split; [|by vm_compute].
  assert (Hv : validate_input float_of_str out_of_range_input
               = Ok (false,
                     Some "battery_temperature must be between -20 and 60°C"%string))
    by (by vm_compute).
  unfold predict. cbn. by rewrite Hv.
Qed.

(** C1, as stated, fails: the answer to the out-of-range sample does not
    mention [state_of_charge]. *)
Lemma out_of_range_both_messages_refuted :
  ~ (exists msg,
        predict sample_float_of_str sample_float_pow unit sample_scaler
                sample_model sample_round sample_names sample_medians
                (Request true (Ok (Some out_of_range_input)))
        = Response (ErrorPayload (Some msg)) 400 /\
        contains "battery_temperature" msg = true /\
        contains "state_of_charge" msg = true).
Proof.
  intros (msg & Hresp & _ & Hsoc).
  vm_compute in Hresp. injection Hresp as <-. by vm_compute in Hsoc.
Qed.

Lemma health_percentage_bounds rul :
  rul = NInt 0 \/ (exists f, rul = NFloat f) ->
  exists q pct,
    num_truediv rul (NInt 1200) = Ok q /\
    num_mul (NFloat q) (NInt 100) = Ok pct /\
    health_percentage rul = Ok (py_min (NInt 100) (py_max (NInt 0) pct)) /\
    num_le (NInt 0) (py_min (NInt 100) (py_max (NInt 0) pct)) = true /\
    num_le (py_min (NInt 100) (py_max (NInt 0) pct)) (NInt 100) = true.
Proof.
  intros Hrul.
  assert (Hq : exists q, num_truediv rul (NInt 1200) = Ok q).
  { destruct Hrul as [->|[f ->]]; [by eexists; vm_compute|].
    eexists. unfold num_truediv. cbn. unfold float_of_int.
    by replace (F64.of_Z 1200) with (S754_finite false 5277655813324800 (-42))
      by (by vm_compute). }
  destruct Hq as [q Hq]. exists q, (NFloat (F64.mul q (F64.of_Z 100))).
  assert (Hm : num_mul (NFloat q) (NInt 100) = Ok (NFloat (F64.mul q (F64.of_Z 100))))
    by (by apply num_mul_float_small).
  split; [done|]. split; [done|]. split.
  { unfold health_percentage. rewrite Hq. cbn [rbind]. by rewrite Hm. }
  generalize (F64.mul q (F64.of_Z 100)). intros p.
  unfold py_max.
  destruct (num_gt (NFloat p) (NInt 0)) eqn:Hpos; [|by vm_compute].
  unfold py_min.
  destruct (num_lt (NFloat p) (NInt 100)) eqn:Hlt.
  - split; [by apply num_gt_le | by apply num_lt_le].
  - by vm_compute.
Qed.


(* ===================================================================== *)
(** ** The statements at the samples *)
(* ===================================================================== *)



(** C6 at the sample: an entry under a name the catalog lacks leaves the
    vector as it is. *)
Lemma writes_stay_in_catalog_witness :
  let st' := snd (prepare_features sample_float_of_str sample_float_pow
                                   sample_state) in
  fst (feature_array (State (feature_names st') (feature_medians st')
                            (user_input st')
                            (<["not_in_catalog"%string := PNone]> (features st'))))
  = fst (feature_array st').
Proof.
  intros st'.
  destruct (writes_stay_in_catalog sample_float_of_str sample_float_pow
              sample_state) as [_ Hextra].
  apply Hextra. apply in_list_not_elem. vm_compute. reflexivity.
Defined.



(** C2 at the incomplete sample: the three absent fields are all named. *)
Lemma missing_fields_all_named_witness :
  validate_input sample_float_of_str missing_three_input
  = Ok (false,
        Some "Missing required fields: current, charging_cycles, state_of_charge"%string).
Proof.
  destruct (missing_fields_all_named sample_float_of_str missing_three_input)
    as (msg & Hrun & Hmsg & _).
  - exists "current"%string. split.
    + apply in_list_elem. vm_compute. reflexivity.
    + vm_compute. reflexivity.
  - rewrite Hrun, Hmsg. vm_compute. reflexivity.
Defined.

(** C10 at a body whose five fields are all the string ["nan"]: none is in
    its range, and the request is accepted. *)
Lemma nan_fields_pass_validation_witness :
  validate_input sample_float_of_str nan_strings_input = Ok (true, None) /\
  forallb (fun field => negb (in_documented_range field F64.nan)) required_fields
  = true /\
  status (predict sample_float_of_str sample_float_pow unit sample_scaler
                  sample_model sample_round sample_names sample_medians
                  (Request true (Ok (Some nan_strings_input)))) <> 400.
Proof.
  destruct (nan_fields_pass_validation sample_float_of_str)
    as (_ & _ & Hgeneral).
  destruct (Hgeneral nan_strings_input) as [Hvalid Hpast].
  - intros field Hin. apply list_elem_of_In in Hin. simpl in Hin.
    exists (PStr "nan"), F64.nan.
    destruct Hin as [<-|[<-|[<-|[<-|[<-|[]]]]]];
      (split; [vm_compute; reflexivity|]);
      (split; [vm_compute; reflexivity|]); left; reflexivity.
  - split; [exact Hvalid|]. split; [vm_compute; reflexivity|].
    apply (Hpast sample_float_pow unit (fun _ => Ok tt)
                 (fun _ => Ok (PFloat (F64.lit 8505 1)))).
Defined.


(* ===================================================================== *)
(** ** [validate_input]: the five checks as one table *)
(* ===================================================================== *)

Lemma except_ok v :
  except_value_or_type_error (Ok v) = Ok v.
Proof. reflexivity. Qed.

Lemma except_raise e :
  except_value_or_type_error (Raise e) =
  if value_or_type_error e
  then Ok (false, Some ("Invalid data type: " ++ exn_str e)%string)
  else Raise e.
Proof. by destruct e as [[] msg]. Qed.

(** With no field missing, [validate_input] is the table's checks in the
    order of [required_fields] under the [except] clause. *)
Lemma validate_input_by_table fos data :
  absent_fields data = [] ->
  validate_input fos data =
  except_value_or_type_error (check_fields fos data required_fields).
Proof.
  intros Habs. unfold validate_input.
  change (List.filter _ required_fields) with (absent_fields data).
  rewrite Habs, bool_decide_eq_true_2 by done. cbn [negb].
  f_equal. unfold required_fields. cbn [check_fields]. unfold check_field, passes.
  repeat match goal with
         | |- context [getitem data ?k] =>
             destruct (getitem data k) as [?raw|?e]; cbn [rbind]; [|reflexivity];
             match goal with
             | |- context [py_float fos ?r] =>
                 destruct (py_float fos r) as [?x|?e]; cbn [rbind]; [|reflexivity]
             end;
             match goal with
             | |- (if ?c then _ else _) = _ =>
                 let r := eval cbv [documented_range String.eqb Ascii.eqb Bool.eqb]
                            in (documented_range k) in
                 change (documented_range k) with r;
                 cbn [fst snd];
                 destruct c; cbn [negb]; [reflexivity|]
             end
         end.
  reflexivity.
Qed.

Lemma check_fields_skip fos data before rest :
  (forall g, g ∈ before -> check_field fos data g = Ok None) ->
  check_fields fos data (before ++ rest) = check_fields fos data rest.
Proof.
  induction before as [|g before IH]; intros Hpass; [done|].
  cbn [app check_fields]. rewrite Hpass by set_solver. cbn [rbind].
  apply IH. intros g' Hg'. apply Hpass. set_solver.
Qed.

Lemma absent_fields_nil_lookup data field :
  absent_fields data = [] -> field ∈ required_fields -> is_Some (data !! field).
Proof.
  intros Habs Hin. destruct (data !! field) eqn:E; [eauto|].
  pose proof (absent_fields_In _ _ Hin E) as Hx. by rewrite Habs in Hx.
Qed.

(** What the checks of a list of present fields can come to. *)
Lemma check_fields_verdicts fos data fields :
  (forall f, f ∈ fields -> f ∈ required_fields /\ is_Some (data !! f)) ->
  match except_value_or_type_error (check_fields fos data fields) with
  | Ok (true, None) | Ok (false, Some _) => True
  | Ok _ => False
  | Raise e =>
      value_or_type_error e = false /\
      exists field raw,
        field ∈ required_fields /\ data !! field = Some raw /\
        py_float fos raw = Raise e
  end.
Proof.
  induction fields as [|f fields IH]; intros Hpres; [done|].
  cbn [check_fields]. unfold check_field.
  destruct (Hpres f) as [Hreq [raw Hraw]]; [set_solver|].
  rewrite (getitem_lookup _ _ _ Hraw). cbn [rbind].
  destruct (py_float fos raw) as [x|e] eqn:Hx; cbn [rbind].
  - destruct (passes _ _ x); cbn [rbind]; [|done].
    apply IH. intros g Hg. apply Hpres. set_solver.
  - rewrite except_raise. destruct (value_or_type_error e) eqn:He; [done|].
    split; [done|]. by exists f, raw.
Qed.

(** A result of [validate_input] is a success without a message or a
    failure with one. *)
Lemma validate_input_ok_shape fos data b m :
  validate_input fos data = Ok (b, m) ->
  (b = true /\ m = None) \/ (b = false /\ exists msg, m = Some msg).
Proof.
  destruct (decide (absent_fields data = [])) as [Habs|Habs].
  - rewrite validate_input_by_table by done.
    pose proof (check_fields_verdicts fos data required_fields) as Hshape.
    intros Hv. rewrite Hv in Hshape.
    destruct b, m as [msg|]; try (exfalso; apply Hshape; intros f Hf;
      split; [done | by apply absent_fields_nil_lookup]).
    + by left.
    + right. eauto.
  - rewrite validate_input_missing by done. intros [= <- <-]. right. eauto.
Qed.

(* ===================================================================== *)
(** ** [predict], branch by branch *)
(* ===================================================================== *)

Section Handler.

Variable float_of_str : string -> result spec_float.
Variable float_pow : spec_float -> spec_float -> result spec_float.
Variable ndarray : Type.
Variable scaler_transform : list pyval -> result ndarray.
Variable model_predict : ndarray -> result pyval.
Variable py_round : num -> Z -> num.
Variable names : list string.
Variable medians : gmap string spec_float.

Let serve (req : request) : response :=
  predict float_of_str float_pow ndarray (Some scaler_transform)
          (Some model_predict) py_round names medians req.

Lemma predict_rejected is_json_ data msg :
  validate_input float_of_str data = Ok (false, msg) ->
  serve (Request is_json_ (Ok (Some data))) =
  if is_json_ then Response (ErrorPayload msg) 400
  else error_response "Content-Type must be application/json" 400.
Proof.
  intros Hv. unfold serve, predict. destruct is_json_; cbn; [|done].
  by rewrite Hv.
Qed.

Lemma predict_validation_raises data e :
  validate_input float_of_str data = Raise e ->
  serve (Request true (Ok (Some data))) =
  error_response ("Unexpected error: " ++ exn_str e) 500.
Proof. intros Hv. unfold serve, predict. cbn. by rewrite Hv. Qed.

Lemma floor_rul_cases f : floor_rul f = NInt 0 \/ exists g, floor_rul f = NFloat g.
Proof. unfold floor_rul, py_max. destruct (num_gt _ _); eauto. Qed.

(** Past the validation: a stage raises and its 500 answer names it, or
    the answer is the 200 payload. *)
Lemma predict_accepted data :
  validate_input float_of_str data = Ok (true, None) ->
  (exists msg,
      stage_error float_of_str float_pow scaler_transform model_predict
                  names medians data = Some msg /\
      serve (Request true (Ok (Some data))) = error_response msg 500) \/
  (exists rul pct input,
      stage_error float_of_str float_pow scaler_transform model_predict
                  names medians data = None /\
      predict_stages float_of_str float_pow scaler_transform model_predict
                     names medians data = Ok rul /\
      health_percentage rul = Ok pct /\
      echoed data input /\
      serve (Request true (Ok (Some data))) =
      Response (SuccessPayload (py_round rul 2) (py_round pct 2) input) 200).
Proof.
  intros Hvalid.
  pose proof Hvalid as Hfields.
  apply validate_input_accepts_iff in Hfields
    as (t & v & c & n & s & _ & _ & _ & _ & _ & (Ht & Hv & Hc & Hn & Hs) & _).
  unfold serve, predict, stage_error, predict_stages. cbn. rewrite Hvalid. cbn.
  destruct (fst (prepare_features float_of_str float_pow
                   (State names medians data ∅))) as [row|e];
    [|left; eauto].
  cbn. destruct (scaler_transform row) as [scaled|e]; [|left; eauto].
  cbn. destruct (model_predict scaled) as [out|e]; cbn; [|left; eauto].
  destruct (py_float float_of_str out) as [f|e]; cbn; [|left; eauto].
  right.
  destruct (health_percentage_bounds (floor_rul f) (floor_rul_cases f))
    as (q & p & _ & _ & Hpct & _).
  rewrite Hpct. cbn.
  rewrite (getitem_lookup _ _ _ Ht), (getitem_lookup _ _ _ Hv),
    (getitem_lookup _ _ _ Hc), (getitem_lookup _ _ _ Hn),
    (getitem_lookup _ _ _ Hs). cbn.
  eexists _, _, _. split; [reflexivity|]. split; [reflexivity|].
  split; [exact Hpct|]. split; [|reflexivity].
  split; [reflexivity|]. intros field w Hin. simpl in Hin.
  destruct Hin as [[= <- <-]|[[= <- <-]|[[= <- <-]|[[= <- <-]|[[= <- <-]|[]]]]]];
    done.
Qed.

End Handler.

(* ===================================================================== *)
(** ** [prepare_features], one statement after the other *)
(* ===================================================================== *)

(** A call that returns went through its ten statements, none of which
    changed the catalog or the argument. *)
Lemma prepare_features_steps fos fpow st row st' :
  prepare_features fos fpow st = (Ok row, st') ->
  exists s1 s2 s3 s4 s5 s6 s7 s8,
    (map_temperature (initialised st) = (Ok tt, s1) /\
     map_voltage s1 = (Ok tt, s2) /\
     map_current s2 = (Ok tt, s3) /\
     map_cycles fos fpow s3 = (Ok tt, s4) /\
     derive_voltage_drop s4 = (Ok tt, s5) /\
     derive_energy_density s5 = (Ok tt, s6) /\
     derive_temp_deviation s6 = (Ok tt, s7) /\
     map_state_of_charge s7 = (Ok tt, s8) /\
     estimate_exp_time fos s8 = (Ok tt, st')) /\
    (same_env st s1 /\ same_env st s2 /\ same_env st s3 /\ same_env st s4 /\
     same_env st s5 /\ same_env st s6 /\ same_env st s7 /\ same_env st s8 /\
     same_env st st') /\
    row = row_of st'.
Proof.
  intros Hrun. rewrite prepare_features_unfold in Hrun. unfold after_init in Hrun.
  apply bind_ok in Hrun as ([] & s1 & H1 & Hrun).
  apply bind_ok in Hrun as ([] & s2 & H2 & Hrun).
  apply bind_ok in Hrun as ([] & s3 & H3 & Hrun).
  apply bind_ok in Hrun as ([] & s4 & H4 & Hrun).
  apply bind_ok in Hrun as ([] & s5 & H5 & Hrun).
  apply bind_ok in Hrun as ([] & s6 & H6 & Hrun).
  apply bind_ok in Hrun as ([] & s7 & H7 & Hrun).
  apply bind_ok in Hrun as ([] & s8 & H8 & Hrun).
  apply bind_ok in Hrun as ([] & s9 & H9 & Hrun).
  pose proof (feature_array_returns_row _ _ _ Hrun) as Hrow.
  assert (s9 = st') as ->.
  { revert Hrun. unfold feature_array, bind, gets, ret. cbn. by intros [= _ <-]. }
  exists s1, s2, s3, s4, s5, s6, s7, s8.
  pose proof (modifies_env _ _ _ _ _ map_temperature_modifies H1) as E1.
  pose proof (modifies_env _ _ _ _ _ map_voltage_modifies H2) as E2.
  pose proof (modifies_env _ _ _ _ _ map_current_modifies H3) as E3.
  pose proof (modifies_env _ _ _ _ _ (map_cycles_modifies fos fpow) H4) as E4.
  pose proof (modifies_env _ _ _ _ _ derive_voltage_drop_modifies H5) as E5.
  pose proof (modifies_env _ _ _ _ _ derive_energy_density_modifies H6) as E6.
  pose proof (modifies_env _ _ _ _ _ derive_temp_deviation_modifies H7) as E7.
  pose proof (modifies_env _ _ _ _ _ map_state_of_charge_modifies H8) as E8.
  pose proof (modifies_env _ _ _ _ _ (estimate_exp_time_modifies fos) H9) as E9.
  assert (E0 : same_env st (initialised st)) by done.
  pose proof (same_env_trans _ _ _ E0 E1) as F1.
  pose proof (same_env_trans _ _ _ F1 E2) as F2.
  pose proof (same_env_trans _ _ _ F2 E3) as F3.
  pose proof (same_env_trans _ _ _ F3 E4) as F4.
  pose proof (same_env_trans _ _ _ F4 E5) as F5.
  pose proof (same_env_trans _ _ _ F5 E6) as F6.
  pose proof (same_env_trans _ _ _ F6 E7) as F7.
  pose proof (same_env_trans _ _ _ F7 E8) as F8.
  pose proof (same_env_trans _ _ _ F8 E9) as F9.
  done.
Qed.

(** Reading the final working map at a key: the statements that do not
    assign it are skipped, from the last one backwards. *)
Ltac skip_back k H lemma :=
  rewrite (modifies_other_run _ _ _ _ _ k lemma H) by set_solver.

Lemma initialised_lookup st k :
  features (initialised st) !! k =
  if in_list k (feature_names st)
  then Some (fallback (feature_medians st) k)
  else None.
Proof.
  cbn. rewrite median_dict_lookup. unfold in_list, fallback.
  destruct (decide (k ∈ feature_names st)).
  - by rewrite bool_decide_eq_true_2.
  - by rewrite bool_decide_eq_false_2.
Qed.

Lemma in_list_lookup names i (name : string) :
  names !! i = Some name -> in_list name names = true.
Proof.
  intros H. apply bool_decide_eq_true_2. by eapply list_elem_of_lookup_2.
Qed.



(** What the statements that compute an estimate leave under their keys. *)
Lemma map_cycles_entries fos fpow st st' :
  map_cycles fos fpow st = (Ok tt, st') ->
  match user_input st !! "charging_cycles" with
  | Some raw =>
      exists c,
        py_float fos raw = Ok c /\
        features st' !! Cycle_Index =
        (if in_list Cycle_Index (feature_names st) then Some (PFloat c)
         else features st !! Cycle_Index) /\
        (if in_list cycle_squared (feature_names st)
         then exists sq, fpow c (F64.of_Z 2) = Ok sq /\
                         features st' !! cycle_squared = Some (PFloat sq)
         else features st' !! cycle_squared = features st !! cycle_squared)
  | None => st' = st
  end.
Proof.
  unfold map_cycles. cbv [bind gets when lift setitem ret].
  destruct (user_input st !! "charging_cycles") as [raw|] eqn:Hraw.
  - rewrite (in_dict_true _ _ _ Hraw), (getitem_lookup _ _ _ Hraw).
    destruct (py_float fos raw) as [c|e]; [|discriminate].
    destruct (in_list Cycle_Index (feature_names st)),
      (in_list cycle_squared (feature_names st)); cbn;
      try (destruct (fpow c (F64.of_Z 2)) as [sq|e] eqn:Hsq; cbn);
      intros [= <-]; try discriminate; exists c; (split; [done|]); cbn;
      repeat split; eauto;
      try (exists sq; split; [done|]);
      by repeat first [ rewrite lookup_insert_eq
                      | rewrite lookup_insert_ne by done ].
  - rewrite (in_dict_none _ _ Hraw). by intros [= <-].
Qed.

Lemma estimate_exp_time_entry fos st st' :
  estimate_exp_time fos st = (Ok tt, st') ->
  match user_input st !! "charging_cycles" with
  | Some raw =>
      if in_list Exp_Time (feature_names st)
      then exists c,
          py_float fos raw = Ok c /\
          features st' !! Exp_Time
          = Some (PFloat (F64.mul c (F64.of_Z 10000)))
      else st' = st
  | None => st' = st
  end.
Proof.
  unfold estimate_exp_time. cbv [bind gets when lift setitem ret].
  destruct (user_input st !! "charging_cycles") as [raw|] eqn:Hraw.
  - rewrite (in_dict_true _ _ _ Hraw), (getitem_lookup _ _ _ Hraw).
    destruct (in_list Exp_Time (feature_names st)); [|by intros [= <-]].
    destruct (py_float fos raw) as [c|e]; [|discriminate].
    rewrite num_mul_float_small by reflexivity.
    intros [= <-]. exists c. split; [done|]. cbn. by rewrite lookup_insert_eq.
  - rewrite (in_dict_none _ _ Hraw).
    destruct (in_list Exp_Time (feature_names st)); by intros [= <-].
Qed.

Lemma map_state_of_charge_entry st st' :
  map_state_of_charge st = (Ok tt, st') ->
  match user_input st !! "state_of_charge" with
  | Some raw =>
      exists q,
        py_truediv raw (PFloat (F64.of_Z 100)) = Ok q /\
        if in_list Time_at_4_15V (feature_names st)
        then features st' !! Time_at_4_15V
             = Some (PFloat (F64.add (F64.of_Z 5000) (F64.mul q (F64.of_Z 1000))))
        else st' = st
  | None => st' = st
  end.
Proof.
  unfold map_state_of_charge. cbv [bind gets when lift setitem ret].
  destruct (user_input st !! "state_of_charge") as [raw|] eqn:Hraw.
  - rewrite (in_dict_true _ _ _ Hraw), (getitem_lookup _ _ _ Hraw).
    destruct (py_truediv raw (PFloat (F64.of_Z 100))) as [q|e]; [|discriminate].
    intros H. exists q. split; [done|].
    destruct (in_list Time_at_4_15V (feature_names st)); [|by injection H as <-].
    revert H. rewrite num_mul_float_small by reflexivity.
    rewrite num_add_small_float by reflexivity.
    intros [= <-]. cbn. by rewrite lookup_insert_eq.
  - rewrite (in_dict_none _ _ Hraw). by intros [= <-].
Qed.



(** An entry of the vector is the working map's value under its name. *)
Lemma row_entry fos fpow st row st' i name :
  prepare_features fos fpow st = (Ok row, st') ->
  feature_names st !! i = Some name ->
  forall v, features st' !! name = Some v -> row !! i = Some v.
Proof.
  intros Hrun Hname v Hv.
  rewrite (prepare_features_row _ _ _ _ _ Hrun).
  pose proof (prepare_features_same_env fos fpow st) as (Hn & _).
  rewrite Hrun in Hn. cbn in Hn.
  rewrite (row_of_lookup st' i name) by (by rewrite Hn).
  unfold dict_get. by rewrite Hv.
Qed.

(* ===================================================================== *)
(** ** The current reaches one feature only *)
(* ===================================================================== *)




















(* ===================================================================== *)
(** ** The exceptions [prepare_features] can raise *)
(* ===================================================================== *)








Section Raises.

Variable fos : string -> result spec_float.
Variable fpow : spec_float -> spec_float -> result spec_float.
















End Raises.

(* ===================================================================== *)
(** ** A request without the five fields *)
(* ===================================================================== *)

Lemma map_temperature_absent st :
  user_input st !! "battery_temperature" = None -> map_temperature st = (Ok tt, st).
Proof.
  intros H. unfold map_temperature. cbv [bind gets when lift setitem ret].
  by rewrite (in_dict_none _ _ H).
Qed.

Lemma map_voltage_absent st :
  user_input st !! "voltage" = None -> map_voltage st = (Ok tt, st).
Proof.
  intros H. unfold map_voltage. cbv [bind gets when lift setitem ret].
  by rewrite (in_dict_none _ _ H).
Qed.

Lemma map_current_absent st :
  user_input st !! "current" = None -> map_current st = (Ok tt, st).
Proof.
  intros H. unfold map_current. cbv [bind gets when lift setitem ret].
  by rewrite (in_dict_none _ _ H).
Qed.

(* ===================================================================== *)
(** ** Start-up *)
(* ===================================================================== *)

Lemma medians_dict_lookup cols name :
  is_Some (Server.medians_dict cols !! name)
  <-> exists col, col ∈ cols /\ Server.col_name col = name.
Proof.
  unfold Server.medians_dict.
  assert (Hgen : forall acc : gmap string spec_float,
             is_Some (foldl (fun d col =>
                               <[Server.col_name col := Server.col_median col]> d)
                            acc cols !! name)
             <-> is_Some (acc !! name)
                 \/ exists col, col ∈ cols /\ Server.col_name col = name).
  { induction cols as [|c cols IH]; intros acc; simpl.
    - split; [by left|]. intros [?|(col & Hin & _)]; [done|].
      by apply elem_of_nil in Hin.
    - rewrite IH. split.
      + intros [Hacc|(col & Hin & Hname)].
        * destruct (decide (Server.col_name c = name)) as [Heq|Hne].
          -- right. exists c. split; [by left | done].
          -- left. by rewrite lookup_insert_ne in Hacc.
        * right. exists col. split; [by right | done].
      + intros [Hacc|(col & Hin & Hname)].
        * left. destruct (decide (Server.col_name c = name)) as [<-|Hne].
          -- rewrite lookup_insert_eq. eauto.
          -- by rewrite lookup_insert_ne.
        * apply elem_of_cons in Hin as [->|Hin].
          -- left. rewrite <- Hname, lookup_insert_eq. eauto.
          -- right. by exists col. }
  rewrite Hgen, lookup_empty. split; [|by right].
  intros [[? ?]|?]; done.
Qed.

Lemma numeric_cols_schema df1 df2 :
  schema df1 = schema df2 ->
  map Server.col_name (Server.numeric_cols df1)
  = map Server.col_name (Server.numeric_cols df2).
Proof.
  revert df2. induction df1 as [|c1 df1 IH]; intros [|c2 df2]; try done.
  unfold schema. simpl. intros [= Hname Hdtype Hrest].
  rewrite Hname, Hdtype.
  destruct (negb _ && _); simpl; [rewrite Hname|]; by rewrite (IH df2).
Qed.

Lemma numeric_cols_names df name :
  name ∈ map Server.col_name (Server.numeric_cols df) ->
  (name ∉ Server.exclude_cols) /\
  exists col, col ∈ Server.numeric_cols df /\ Server.col_name col = name.
Proof.
  intros Hin. apply list_elem_of_fmap in Hin as (col & -> & Hcol).
  split; [|by exists col].
  unfold Server.numeric_cols in Hcol.
  apply list_elem_of_In, filter_In in Hcol as [_ Hkeep].
  apply andb_true_iff in Hkeep as [Hkeep _].
  apply negb_true_iff in Hkeep. by apply in_list_not_elem.
Qed.

(** Running [load_model_and_scaler] on each kind of disk. *)
Lemma load_outcome {ndarray} (d : Server.disk ndarray) g :
  match Server.battery_health_model_pkl d with
  | None =>
      Server.load_model_and_scaler d g
      = (Raise (Server.FileNotFoundError
                  "Model file 'battery_health_model.pkl' not found. Please train the model first."),
         g)
  | Some (Raise e) => Server.load_model_and_scaler d g = (Raise e, g)
  | Some (Ok m) =>
      match Server.feature_scaler_pkl d with
      | None =>
          Server.load_model_and_scaler d g
          = (Raise (Server.FileNotFoundError
                      "Scaler file 'feature_scaler.pkl' not found. Please train the model first."),
             Server.Globals (Some m) (Server.scaler g) (Server.feature_names g)
                            (Server.feature_medians g) (Server.model_info g))
      | Some (Raise e) =>
          Server.load_model_and_scaler d g
          = (Raise e,
             Server.Globals (Some m) (Server.scaler g) (Server.feature_names g)
                            (Server.feature_medians g) (Server.model_info g))
      | Some (Ok s) =>
          match Server.model_info_json d, Server.merged_battery_data_csv d with
          | Some (Raise e), _ | None, Some (Raise e, _) =>
              Server.load_model_and_scaler d g
              = (Raise e,
                 Server.Globals (Some m) (Some s) (Server.feature_names g)
                                (Server.feature_medians g) (Server.model_info g))
          | None, None =>
              Server.load_model_and_scaler d g
              = (Raise (Server.FileNotFoundError
                          "Cannot determine feature names. Please ensure model_info.json exists or dataset is available."),
                 Server.Globals (Some m) (Some s) (Server.feature_names g)
                                (Server.feature_medians g) (Server.model_info g))
          | Some (Ok info), None =>
              Server.load_model_and_scaler d g
              = (Ok tt,
                 Server.Globals (Some m) (Some s) (Some (default [] info))
                                (Some ∅) (Some info))
          | Some (Ok info), Some (_, Raise e) =>
              Server.load_model_and_scaler d g
              = (Raise e,
                 Server.Globals (Some m) (Some s) (Some (default [] info))
                                (Server.feature_medians g) (Some info))
          | Some (Ok info), Some (_, Ok full) =>
              Server.load_model_and_scaler d g
              = (Ok tt,
                 Server.Globals (Some m) (Some s) (Some (default [] info))
                                (Some (Server.medians_dict (Server.numeric_cols full)))
                                (Some info))
          | None, Some (Ok head, Raise e) =>
              Server.load_model_and_scaler d g
              = (Raise e,
                 Server.Globals (Some m) (Some s)
                                (Some (map Server.col_name (Server.numeric_cols head)))
                                (Server.feature_medians g) (Server.model_info g))
          | None, Some (Ok head, Ok full) =>
              Server.load_model_and_scaler d g
              = (Ok tt,
                 Server.Globals (Some m) (Some s)
                                (Some (map Server.col_name (Server.numeric_cols head)))
                                (Some (Server.medians_dict (Server.numeric_cols full)))
                                (Server.model_info g))
          end
      end
  end.
Proof.
  unfold Server.load_model_and_scaler.
  destruct d as [[[m|e]|] [[s|e']|] [[info|e'']|] [[[head|e3] [full|e4]]|]];
    reflexivity.
Qed.

Lemma predict_loaded_message
    fos fpow ndarray scaler_transform model_predict py_round names medians req :
  body (predict fos fpow ndarray (Some scaler_transform) (Some model_predict)
                py_round names medians req)
  <> ErrorPayload (Some "Model not loaded. Please ensure model files are available.").
Proof.
  destruct req as [is_json_ body_].
  destruct is_json_; [|discriminate].
  destruct body_ as [[data|]|e]; [|discriminate..].
  destruct (validate_input fos data) as [[b m]|e] eqn:Hv;
    [destruct (validate_input_ok_shape _ _ _ _ Hv) as [[-> ->]|[-> [msg ->]]]|].
  - destruct (predict_accepted fos fpow ndarray scaler_transform model_predict
                py_round names medians data Hv)
      as [(msg & Herr & ->)|(rul & pct & input & _ & _ & _ & _ & ->)];
      [|discriminate].
    revert Herr. unfold stage_error.
    destruct (fst (prepare_features _ _ _)) as [row|]; [|by intros [= <-]].
    destruct (scaler_transform row) as [scaled|]; [|by intros [= <-]].
    destruct (rbind _ _); [done | by intros [= <-]].
  - rewrite (predict_rejected _ _ _ _ _ _ _ _ true _ _ Hv). cbn.
    intros [= ->]. revert Hv. unfold validate_input.
    destruct (negb _); [discriminate|].
    repeat match goal with
           | |- context [getitem data ?k] =>
               destruct (getitem data k); cbn [rbind]; [|by destruct e as [[] ?]]
           | |- context [py_float fos ?r] =>
               destruct (py_float fos r); cbn [rbind]; [|by destruct e as [[] ?]]
           | |- context [except_value_or_type_error (if ?c then _ else _)] =>
               destruct c; [discriminate|]
           end.
    discriminate.
  - rewrite (predict_validation_raises _ _ _ _ _ _ _ _ _ _ Hv). discriminate.
Qed.

Lemma is_Some_flag {A} (o : option A) :
  bool_decide (is_Some o) = match o with Some _ => true | None => false end.
Proof.
  destruct o.
  - apply bool_decide_eq_true_2. eauto.
  - apply bool_decide_eq_false_2. by intros [? ?].
Qed.

(* ===================================================================== *)
(** ** The API seen from its clients *)
(* ===================================================================== *)









(** The model and the scaler loaded, the three request bodies of
    [test_api.py] are judged by [validate_input] alone. *)
Lemma test_bodies_validated fos :
  validate_input fos sample_input = Ok (true, None) /\
  (exists msg, validate_input fos missing_three_input = Ok (false, Some msg)) /\
  (exists msg, validate_input fos out_of_range_data = Ok (false, Some msg)).
Proof.
  split; [by vm_compute|]. split; eexists; vm_compute; reflexivity.
Qed.

(* ===================================================================== *)
(** ** Comparing a number with integer constants *)
(* ===================================================================== *)

Lemma Z_float_compare_mono a b f :
  a <= b ->
  Z_float_compare a f = Some Gt -> Z_float_compare b f = Some Gt.
Proof.
  intros Hab. destruct f as [s|s| |s m e]; unfold Z_float_compare; try done.
  - intros [= H]. f_equal. apply Z.compare_gt_iff in H. apply Z.compare_gt_iff. lia.
  - destruct (0 <=? e) eqn:He; intros [= H]; f_equal;
      apply Z.compare_gt_iff in H; apply Z.compare_gt_iff; [lia|].
    assert (0 < 2 ^ (- e)) by (apply Z.pow_pos_nonneg; lia). nia.
Qed.

Lemma Z_float_compare_mono_lt a b f :
  a <= b ->
  Z_float_compare b f = Some Lt -> Z_float_compare a f = Some Lt.
Proof.
  intros Hab. destruct f as [s|s| |s m e]; unfold Z_float_compare; try done.
  - intros [= H]. f_equal. change (b < 0) in H. change (a < 0). lia.
  - destruct (0 <=? e) eqn:He; intros [= H]; f_equal.
    + change (b < cond_Zopp s (Z.pos m) * 2 ^ e) in H.
      change (a < cond_Zopp s (Z.pos m) * 2 ^ e). lia.
    + change (b * 2 ^ (- e) < cond_Zopp s (Z.pos m)) in H.
      change (a * 2 ^ (- e) < cond_Zopp s (Z.pos m)).
      assert (0 < 2 ^ (- e)) by (apply Z.pow_pos_nonneg; lia). nia.
Qed.

(** [h < a] and [a <= b] give [h < b]. *)
Lemma num_lt_const_mono h a b :
  a <= b -> num_lt h (NInt a) = true -> num_lt h (NInt b) = true.
Proof.
  intros Hab. unfold num_lt, num_compare. destruct h as [z|f].
  - destruct (z ?= a) eqn:E; try discriminate. intros _.
    change (z < a) in E.
    assert (Hlt : (z ?= b) = Lt) by (change (z < b); lia). by rewrite Hlt.
  - destruct (Z_float_compare a f) as [[]|] eqn:E; try discriminate. intros _.
    by rewrite (Z_float_compare_mono a b f Hab E).
Qed.

(** [h >= b] and [a <= b] give [h >= a]. *)
Lemma num_ge_const_mono h a b :
  a <= b -> num_ge h (NInt b) = true -> num_ge h (NInt a) = true.
Proof.
  intros Hab. unfold num_ge, num_compare. destruct h as [z|f].
  - intros H.
    assert (Hzb : b <= z).
    { destruct (z ?= b) eqn:E; try discriminate.
      - apply Z.compare_eq_iff in E. lia.
      - apply Z.compare_gt_iff in E. lia. }
    destruct (z ?= a) eqn:E; try done. change (z < a) in E. lia.
  - destruct (Z_float_compare b f) as [[]|] eqn:E; try discriminate; intros _.
    + destruct (Z_float_compare a f) as [[]|] eqn:E'; try done.
      * pose proof (Z_float_compare_mono a b f Hab E'). congruence.
      * destruct f; discriminate.
    + by rewrite (Z_float_compare_mono_lt a b f Hab E).
Qed.

Lemma num_compare_int_defined n z :
  match n with NFloat f => F64.is_nan f = false | NInt _ => True end ->
  num_compare n (NInt z) <> None.
Proof.
  destruct n as [x|f]; unfold num_compare; [done|].
  intros Hnan. by destruct f.
Qed.

(** For a number that is no NaN, [h >= z] is the negation of [h < z]. *)
Lemma num_ge_not_lt n z :
  match n with NFloat f => F64.is_nan f = false | NInt _ => True end ->
  num_ge n (NInt z) = negb (num_lt n (NInt z)).
Proof.
  intros Hnan. pose proof (num_compare_int_defined n z Hnan) as Hdef.
  unfold num_ge, num_lt. by destruct (num_compare n (NInt z)) as [[]|].
Qed.

Lemma num_ge_le n z : num_ge n (NInt z) = num_le (NInt z) n.
Proof.
  unfold num_ge, num_le. rewrite (num_compare_antisym n (NInt z)).
  by destruct (num_compare n (NInt z)) as [[]|].
Qed.

(* ===================================================================== *)
(** ** [get_health_recommendations] on numbers *)
(* ===================================================================== *)

Lemma py_gt_num a x b : as_num a = Some x -> py_gt a b = Ok (num_gt x b).
Proof. unfold py_gt. by intros ->. Qed.

Lemma py_lt_num a x b : as_num a = Some x -> py_lt a b = Ok (num_lt x b).
Proof. unfold py_lt. by intros ->. Qed.

Lemma py_ge_num a x b : as_num a = Some x -> py_ge a b = Ok (num_ge x b).
Proof. unfold py_ge. by intros ->. Qed.

Lemma py_gt_ok a b r : py_gt a b = Ok r -> exists x, as_num a = Some x.
Proof. unfold py_gt. destruct (as_num a); [eauto | discriminate]. Qed.

Lemma py_lt_ok a b r : py_lt a b = Ok r -> exists x, as_num a = Some x.
Proof. unfold py_lt. destruct (as_num a); [eauto | discriminate]. Qed.

(** On five numbers the function returns the list [advice] describes. *)
Lemma get_health_recommendations_numbers data health t v c n h :
  as_num (shown_temperature data) = Some t ->
  as_num (shown_voltage data) = Some v ->
  as_num (shown_current data) = Some c ->
  as_num (shown_cycles data) = Some n ->
  as_num health = Some h ->
  get_health_recommendations data health = Ok (advice t v c n h).
Proof.
  intros Ht Hv Hc Hn Hh. unfold get_health_recommendations, advice.
  fold (shown_temperature data) (shown_voltage data) (shown_current data)
       (shown_cycles data).
  rewrite !(py_gt_num _ _ _ Ht), !(py_lt_num _ _ _ Ht),
    !(py_gt_num _ _ _ Hv), !(py_lt_num _ _ _ Hv), !(py_gt_num _ _ _ Hc),
    !(py_gt_num _ _ _ Hn), !(py_lt_num _ _ _ Hh), !(py_ge_num _ _ _ Hh).
  cbn [rbind].
  destruct (num_gt t (NInt 45)), (num_lt t (NInt 0)),
    (num_lt v (NFloat (F64.lit 32 1))), (num_gt v (NFloat (F64.lit 43 1)));
    cbn [rbind app];
    destruct (num_gt c (NInt 5)), (num_gt n (NInt 1000)); cbn [app];
    destruct (num_lt h (NInt 40)), (num_lt h (NInt 60)), (num_ge h (NInt 80));
    reflexivity.
Qed.

(** It returns on numbers only. *)
Lemma get_health_recommendations_ok data health recs :
  get_health_recommendations data health = Ok recs ->
  exists t v c n h,
    as_num (shown_temperature data) = Some t /\
    as_num (shown_voltage data) = Some v /\
    as_num (shown_current data) = Some c /\
    as_num (shown_cycles data) = Some n /\
    as_num health = Some h.
Proof.
  unfold get_health_recommendations.
  fold (shown_temperature data) (shown_voltage data) (shown_current data)
       (shown_cycles data).
  unfold py_gt, py_lt, py_ge.
  destruct (as_num (shown_temperature data)) as [t|],
    (as_num (shown_voltage data)) as [v|],
    (as_num (shown_current data)) as [c|],
    (as_num (shown_cycles data)) as [n|],
    (as_num health) as [h|];
    intros H; try (by exists t, v, c, n, h);
    exfalso; revert H; cbn [rbind];
    repeat match goal with
           | |- context [if ?b then _ else _] => destruct b; cbn [rbind]
           end;
    discriminate.
Qed.

(** Which messages [advice] holds. *)
Lemma advice_mentions t v c n h :
  let recs := advice t v c n h in
  (length recs <= 5)%nat /\
  mentions recs rec_high_temperature = num_gt t (NInt 45) /\
  mentions recs rec_low_temperature
  = negb (num_gt t (NInt 45)) && num_lt t (NInt 0) /\
  mentions recs rec_low_voltage = num_lt v (NFloat (F64.lit 32 1)) /\
  mentions recs rec_high_voltage
  = negb (num_lt v (NFloat (F64.lit 32 1))) && num_gt v (NFloat (F64.lit 43 1)) /\
  mentions recs rec_high_current = num_gt c (NInt 5) /\
  mentions recs rec_high_cycles = num_gt n (NInt 1000) /\
  mentions recs rec_critical = num_lt h (NInt 40) /\
  mentions recs rec_declining = negb (num_lt h (NInt 40)) && num_lt h (NInt 60) /\
  mentions recs rec_excellent
  = negb (num_lt h (NInt 40)) && negb (num_lt h (NInt 60)) && num_ge h (NInt 80).
Proof.
  unfold advice.
  destruct (num_gt t (NInt 45)), (num_lt t (NInt 0)),
    (num_lt v (NFloat (F64.lit 32 1))), (num_gt v (NFloat (F64.lit 43 1))),
    (num_gt c (NInt 5)), (num_gt n (NInt 1000)),
    (num_lt h (NInt 40)), (num_lt h (NInt 60)), (num_ge h (NInt 80));
    vm_compute; repeat split; lia.
Qed.

(* ===================================================================== *)
(** ** [validate_input] and [predict]: verdicts and answers *)
(* ===================================================================== *)


(** X2.  The five checks run in the order of [required_fields] and the first
    field that does not pass decides the outcome, whatever the later fields
    hold: a converted value outside its range gives that field's own
    message, built from the field's name and bounds; a conversion that
    raises a [ValueError] or a [TypeError] gives "Invalid data type: "
    followed by the exception's text; any other exception leaves
    [validate_input]. *)
Theorem first_failing_field_decides float_of_str data before field after raw :
  required_fields = before ++ field :: after ->
  absent_fields data = [] ->
  (forall g, g ∈ before -> check_field float_of_str data g = Ok None) ->
  data !! field = Some raw ->
  match py_float float_of_str raw with
  | Ok x =>
      passes (fst (documented_range field)) (snd (documented_range field)) x
      = false ->
      validate_input float_of_str data = Ok (false, Some (range_message field))
  | Raise e =>
      validate_input float_of_str data =
      if value_or_type_error e
      then Ok (false, Some ("Invalid data type: " ++ exn_str e)%string)
      else Raise e
  end.
Proof.
  intros Hsplit Habs Hbefore Hraw.
  rewrite validate_input_by_table by done.
  rewrite Hsplit, check_fields_skip by done.
  cbn [check_fields]. unfold check_field.
  rewrite (getitem_lookup _ _ _ Hraw). cbn [rbind].
  destruct (py_float float_of_str raw) as [x|e]; cbn [rbind].
  - by intros ->.
  - apply except_raise.
Qed.

(** X3.  A body [validate_input] accepts has every required field present
    and convertible by [float()], and each converted value that is not a NaN
    lies in the documented range of its field, bounds included. *)
Theorem accepted_fields_are_checked float_of_str data :
  validate_input float_of_str data = Ok (true, None) ->
  forall field,
    field ∈ required_fields ->
    exists raw x,
      data !! field = Some raw /\ py_float float_of_str raw = Ok x /\
      (F64.is_nan x = false -> in_documented_range field x = true).
Proof.
  intros Hvalid field Hin.
  destruct (proj1 (validate_input_accepts_exactly float_of_str data) Hvalid
              field Hin) as (raw & x & Hraw & Hx & Hrange).
  exists raw, x. split; [done|]. split; [done|].
  intros Hnan. destruct Hrange as [Hn|Hr]; [congruence | done].
Qed.

(** X4.  An integer too large for a float, in a field whose predecessors
    pass, is not reported as a client error: [float()] raises an
    [OverflowError], which the [except (ValueError, TypeError)] clause of
    [validate_input] does not catch, and the handler answers 500 with
    "Unexpected error: int too large to convert to float". *)
Theorem oversize_integer_is_a_server_error
    float_of_str float_pow ndarray scaler_transform model_predict py_round
    names medians data before field after z :
  required_fields = before ++ field :: after ->
  absent_fields data = [] ->
  (forall g, g ∈ before -> check_field float_of_str data g = Ok None) ->
  data !! field = Some (PInt z) ->
  F64.is_infinite (F64.of_Z z) = true ->
  validate_input float_of_str data
  = Raise (Exn OverflowError "int too large to convert to float") /\
  predict float_of_str float_pow ndarray (Some scaler_transform)
          (Some model_predict) py_round names medians
          (Request true (Ok (Some data)))
  = error_response "Unexpected error: int too large to convert to float" 500.
Proof.
  intros Hsplit Habs Hbefore Hraw Hinf.
  assert (Hv : validate_input float_of_str data
               = Raise (Exn OverflowError "int too large to convert to float")).
  { rewrite validate_input_by_table by done.
    rewrite Hsplit, check_fields_skip by done.
    cbn [check_fields]. unfold check_field.
    rewrite (getitem_lookup _ _ _ Hraw). cbn [rbind].
    unfold PInt, py_float, to_float, float_of_int.
    destruct (F64.of_Z z); try discriminate Hinf. reflexivity. }
  split; [exact Hv|].
  by rewrite (predict_validation_raises _ _ _ _ _ _ _ _ _ _ Hv).
Qed.

(** X5.  Every answer of [predict] is a 200 with the success payload, or a
    400 or a 500 with an error payload whose message is a string, never
    null; no other status code is produced, whatever the request, the
    model and the scaler. *)
Theorem predict_answers_200_400_500
    float_of_str float_pow ndarray scaler model py_round names medians req :
  let r := predict float_of_str float_pow ndarray scaler model py_round
                   names medians req in
  (status r = 200 /\ exists rul pct input, body r = SuccessPayload rul pct input) \/
  ((status r = 400 \/ status r = 500) /\ exists msg, body r = ErrorPayload (Some msg)).
Proof.
  intros r. subst r.
  destruct model as [model_predict|], scaler as [scaler_transform|];
    try (right; split; [by right | by eexists]).
  destruct req as [is_json_ body_].
  destruct is_json_; [|right; split; [by left | by eexists]].
  destruct body_ as [[data|]|e];
    try (right; split; [by (left + right) | by eexists]).
  destruct (validate_input float_of_str data) as [[b m]|e] eqn:Hv;
    [destruct (validate_input_ok_shape _ _ _ _ Hv) as [[-> ->]|[-> [msg ->]]]|].
  - destruct (predict_accepted float_of_str float_pow ndarray scaler_transform
                model_predict py_round names medians data Hv)
      as [(msg & _ & ->)|(rul & pct & input & _ & _ & _ & _ & ->)].
    + right. split; [by right | by eexists].
    + left. split; [done | by eexists _, _, _].
  - rewrite (predict_rejected _ _ _ _ _ _ _ _ true _ _ Hv).
    right. split; [by left | by eexists].
  - rewrite (predict_validation_raises _ _ _ _ _ _ _ _ _ _ Hv).
    right. split; [by right | by eexists].
Qed.

(** X6.  With the model and the scaler loaded, [predict] answers 400 in
    exactly three cases: the request is not JSON, its JSON body is null, or
    [validate_input] returned a failure, and then the 400 carries
    the message [validate_input] gave.  An exception raised while the body
    is decoded or validated is a 500, not a 400. *)
Theorem predict_client_error_iff
    float_of_str float_pow ndarray scaler_transform model_predict py_round
    names medians req :
  let r := predict float_of_str float_pow ndarray (Some scaler_transform)
                   (Some model_predict) py_round names medians req in
  (status r = 400 <->
   is_json req = false \/
   (is_json req = true /\ get_json req = Ok None) \/
   (is_json req = true /\
    exists data msg,
      get_json req = Ok (Some data) /\
      validate_input float_of_str data = Ok (false, Some msg))) /\
  (forall data msg,
      is_json req = true -> get_json req = Ok (Some data) ->
      validate_input float_of_str data = Ok (false, Some msg) ->
      r = Response (ErrorPayload (Some msg)) 400).
Proof.
  intros r. subst r. destruct req as [is_json_ body_]. cbn [is_json get_json].
  split.
  - destruct is_json_; [|split; [by left | done]].
    destruct body_ as [[data|]|e].
    + destruct (validate_input float_of_str data) as [[b m]|e] eqn:Hv;
        [destruct (validate_input_ok_shape _ _ _ _ Hv) as [[-> ->]|[-> [msg ->]]]|].
      * destruct (predict_accepted float_of_str float_pow ndarray
                    scaler_transform model_predict py_round names medians
                    data Hv)
          as [(msg & _ & ->)|(rul & pct & input & _ & _ & _ & _ & ->)];
          (split; [done|]);
          intros [?|[[_ ?]|(_ & d & m & [= <-] & ?)]]; congruence.
      * rewrite (predict_rejected _ _ _ _ _ _ _ _ true _ _ Hv).
        split; [|done]. intros _. right. right. split; [done|]. by exists data, msg.
      * rewrite (predict_validation_raises _ _ _ _ _ _ _ _ _ _ Hv).
        split; [done|].
        intros [?|[[_ ?]|(_ & d & m & [= <-] & ?)]]; congruence.
    + split; [|done]. intros _. right. by left.
    + split; [done|].
      intros [?|[[_ ?]|(_ & d & m & ? & _)]]; congruence.
  - intros data msg -> -> Hv.
    by rewrite (predict_rejected _ _ _ _ _ _ _ _ true _ _ Hv).
Qed.

(** X7.  With the model and the scaler loaded, [predict] answers 200
    exactly when the request is JSON, its body passes [validate_input], and
    none of the three stages (feature preparation, scaling, prediction with
    its conversion to a float) raises: nothing after the prediction can
    fail, neither the health percentage nor the echo of the input. *)
Theorem predict_success_iff
    float_of_str float_pow ndarray scaler_transform model_predict py_round
    names medians req :
  status (predict float_of_str float_pow ndarray (Some scaler_transform)
                  (Some model_predict) py_round names medians req) = 200 <->
  is_json req = true /\
  exists data,
    get_json req = Ok (Some data) /\
    validate_input float_of_str data = Ok (true, None) /\
    is_ok (predict_stages float_of_str float_pow scaler_transform model_predict
                          names medians data) = true.
Proof.
  destruct req as [is_json_ body_]. cbn [is_json get_json].
  destruct is_json_; [|split; [done | by intros [? _]]].
  destruct body_ as [[data|]|e];
    [|split; [done | by intros (_ & d & ? & _)]..].
  destruct (validate_input float_of_str data) as [[b m]|e] eqn:Hv;
    [destruct (validate_input_ok_shape _ _ _ _ Hv) as [[-> ->]|[-> [msg ->]]]|].
  - destruct (predict_accepted float_of_str float_pow ndarray
                scaler_transform model_predict py_round names medians data Hv)
      as [(msg & Herr & ->)|(rul & pct & input & _ & Hst & _ & _ & ->)].
    + split; [done|]. intros (_ & d & [= <-] & _ & Hok). exfalso.
      revert Herr Hok. unfold stage_error, predict_stages.
      destruct (fst (prepare_features _ _ _)) as [row|]; [|done]. cbn.
      destruct (scaler_transform row) as [scaled|]; [|done]. cbn.
      destruct (model_predict scaled) as [out|]; [|done]. cbn.
      by destruct (py_float float_of_str out).
    + split; [|done]. intros _. split; [done|]. exists data.
      split; [done|]. split; [done|]. by rewrite Hst.
  - rewrite (predict_rejected _ _ _ _ _ _ _ _ true _ _ Hv).
    split; [done|]. intros (_ & d & [= <-] & ? & _). congruence.
  - rewrite (predict_validation_raises _ _ _ _ _ _ _ _ _ _ Hv).
    split; [done|]. intros (_ & d & [= <-] & ? & _). congruence.
Qed.

(** X8.  On an accepted body the answer is determined stage by stage: the
    first stage that raises gives a 500 whose message starts with that
    stage's own prefix ("Error preparing features: ", "Error scaling
    features: ", "Error making prediction: ") followed by the exception's
    text; when none raises, the 200 payload carries the rounded floored
    prediction, the rounded health percentage computed from it, and echoes
    the five fields of the request in their fixed order with the very
    values that were sent (unconverted). *)
Theorem predict_accepted_answer
    float_of_str float_pow ndarray scaler_transform model_predict py_round
    names medians data :
  validate_input float_of_str data = Ok (true, None) ->
  let r := predict float_of_str float_pow ndarray (Some scaler_transform)
                   (Some model_predict) py_round names medians
                   (Request true (Ok (Some data))) in
  match stage_error float_of_str float_pow scaler_transform model_predict
                    names medians data with
  | Some msg => r = error_response msg 500
  | None =>
      exists rul pct input,
        predict_stages float_of_str float_pow scaler_transform model_predict
                       names medians data = Ok rul /\
        health_percentage rul = Ok pct /\
        echoed data input /\
        r = Response (SuccessPayload (py_round rul 2) (py_round pct 2) input) 200
  end.
Proof.
  intros Hv r. subst r.
  destruct (predict_accepted float_of_str float_pow ndarray
              scaler_transform model_predict py_round names medians data Hv)
    as [(msg & -> & ->)|(rul & pct & input & -> & Hst & Hpct & Hecho & ->)];
    [done|].
  by exists rul, pct, input.
Qed.

(* ===================================================================== *)
(** ** [prepare_features]: the entries of the vector *)
(* ===================================================================== *)







(** X15.  On an argument that has none of the five fields (the empty
    dictionary, say) [prepare_features] never raises, whatever the catalog
    and the medians, and the vector it returns holds the fallback of every
    name except the three features derived from other entries
    ([voltage_drop], [energy_density], [temp_deviation]). *)
Theorem no_field_gives_the_fallbacks fos fpow st :
  (forall field, field ∈ required_fields -> user_input st !! field = None) ->
  exists row st',
    prepare_features fos fpow st = (Ok row, st') /\
    forall i name,
      feature_names st !! i = Some name ->
      name ∉ [voltage_drop; energy_density; temp_deviation] ->
      row !! i = Some (fallback (feature_medians st) name).
Proof.
  intros Habsent.
  assert (Ht : user_input st !! "battery_temperature" = None)
    by (apply Habsent; set_solver).
  assert (Hv : user_input st !! "voltage" = None) by (apply Habsent; set_solver).
  assert (Hc : user_input st !! "current" = None) by (apply Habsent; set_solver).
  assert (Hn : user_input st !! "charging_cycles" = None)
    by (apply Habsent; set_solver).
  assert (Hs : user_input st !! "state_of_charge" = None)
    by (apply Habsent; set_solver).
  destruct (prepare_features_input_ok fos fpow st) as (row & st' & Hrun).
  { repeat split; intros v Hsome; congruence. }
  exists row, st'. split; [exact Hrun|].
  intros i name Hname Hother.
  apply (row_entry _ _ _ _ _ _ _ Hrun Hname).
  destruct (prepare_features_steps _ _ _ _ _ Hrun)
    as (s1 & s2 & s3 & s4 & s5 & s6 & s7 & s8 &
        (H1 & H2 & H3 & H4 & H5 & H6 & H7 & H8 & H9) &
        (E1 & E2 & E3 & E4 & E5 & E6 & E7 & E8 & E9) & _).
  rewrite map_temperature_absent in H1 by done. injection H1 as <-.
  rewrite map_voltage_absent in H2 by done. injection H2 as <-.
  rewrite map_current_absent in H3 by done. injection H3 as <-.
  pose proof (map_cycles_entries _ _ _ _ H4) as Hcyc.
  cbn in Hcyc. rewrite Hn in Hcyc. subst s4.
  pose proof (estimate_exp_time_entry _ _ _ H9) as Htime.
  destruct E8 as (_ & _ & Hi8). rewrite Hi8, Hn in Htime. subst st'.
  pose proof (map_state_of_charge_entry _ _ H8) as Hsoc.
  destruct E7 as (_ & _ & Hi7). rewrite Hi7, Hs in Hsoc. subst s8.
  skip_back name H7 derive_temp_deviation_modifies.
  skip_back name H6 derive_energy_density_modifies.
  skip_back name H5 derive_voltage_drop_modifies.
  by rewrite initialised_lookup, (in_list_lookup _ _ _ Hname).
Qed.

(* ===================================================================== *)
(** ** Start-up: what a load leaves, and what the endpoints then answer *)
(* ===================================================================== *)

(** X16.  [load_model_and_scaler] returns exactly when the model and the
    scaler files load, the feature names can be had (from
    [model_info.json] when it is there, else from the first rows of the
    dataset), and the dataset, if there, can be read in full; the globals it
    starts from play no part, and the dataset is optional once
    [model_info.json] exists.  After a load that returned, the four globals
    [predict] uses are set, the model and the scaler being the unpickled
    objects. *)
Theorem load_returns_exactly_when_startable {ndarray} (d : Server.disk ndarray) g :
  is_ok (fst (Server.load_model_and_scaler d g)) = startable d /\
  (startable d = true ->
   exists m s names medians,
     Server.battery_health_model_pkl d = Some (Ok m) /\
     Server.feature_scaler_pkl d = Some (Ok s) /\
     snd (Server.load_model_and_scaler d g)
     = Server.Globals (Some m) (Some s) (Some names) (Some medians)
         (match Server.model_info_json d with
          | Some (Ok info) => Some info
          | _ => Server.model_info g
          end)).
Proof.
  destruct d as [[[m|e]|] [[s|e']|] [[[info|]|e'']|] [[[head|e3] [full|e4]]|]];
    (split; [reflexivity|]); try discriminate;
    intros _; by eexists _, _, _, _.
Qed.

(** X17.  [health_check] answers 200 with the status ["healthy"] whatever
    the globals hold, loaded or not; what it tells is in its two flags,
    and [predict] answers its 500 "Model not loaded" to every
    request exactly when one of the flags is false.  The load is not
    atomic: when the model loads and the scaler file is missing or does not
    load, the exception leaves the model assigned, so the health answer
    then shows [model_loaded] true beside [scaler_loaded] as it was. *)
Theorem health_flags_tell_readiness {ndarray} (g : Server.globals ndarray) :
  snd (Server.health_check g) = 200 /\
  Server.health_status (fst (Server.health_check g)) = "healthy"%string /\
  (forall fos fpow py_round names medians req,
      Server.model_loaded (fst (Server.health_check g))
      && Server.scaler_loaded (fst (Server.health_check g)) = false <->
      predict fos fpow ndarray (Server.scaler g) (Server.model g) py_round
              names medians req
      = error_response "Model not loaded. Please ensure model files are available."
                       500) /\
  (forall d m,
      Server.battery_health_model_pkl d = Some (Ok m) ->
      loads (Server.feature_scaler_pkl d) = false ->
      exists e g',
        Server.load_model_and_scaler d g = (Raise e, g') /\
        Server.model g' = Some m /\
        Server.scaler g' = Server.scaler g /\
        Server.model_loaded (fst (Server.health_check g')) = true /\
        Server.scaler_loaded (fst (Server.health_check g'))
        = Server.scaler_loaded (fst (Server.health_check g))).
Proof.
  split; [reflexivity|]. split; [reflexivity|]. split.
  - intros fos fpow py_round names medians req.
    unfold Server.health_check. cbn [fst Server.model_loaded Server.scaler_loaded].
    rewrite !is_Some_flag.
    destruct (Server.model g) as [m|], (Server.scaler g) as [s|];
      try (split; reflexivity).
    split; [discriminate|]. intros Heq. exfalso.
    apply (predict_loaded_message fos fpow ndarray s m py_round names medians req).
    by rewrite Heq.
  - intros d m Hm Hs. pose proof (load_outcome d g) as H.
    rewrite Hm in H. unfold loads in Hs.
    destruct (Server.feature_scaler_pkl d) as [[s|e]|]; [discriminate|..];
      rewrite H; eexists _, _; (split; [reflexivity|]);
      unfold Server.health_check;
      cbn [fst Server.model_loaded Server.scaler_loaded Server.model Server.scaler];
      rewrite !is_Some_flag; done.
Qed.

(** X18.  When [model_info.json] is absent and the load returned, the
    catalog is the names of the numeric columns of the dataset's first rows,
    in column order, without the target ["RUL"] and without
    ["Exp_Cell_Type"]; a median is recorded for exactly the names of the
    numeric columns of the full read, the same two excluded; so when the two
    reads see the same columns and dtypes every catalog name has a median
    and no feature falls back to 0.0.  With [model_info.json] present and no
    dataset, there is no median at all. *)
Theorem inferred_catalog_and_medians {ndarray} (d : Server.disk ndarray) g g' :
  Server.load_model_and_scaler d g = (Ok tt, g') ->
  (Server.model_info_json d = None ->
   exists head full names medians,
     Server.merged_battery_data_csv d = Some (Ok head, Ok full) /\
     Server.feature_names g' = Some names /\
     Server.feature_medians g' = Some medians /\
     names = map Server.col_name (Server.numeric_cols head) /\
     (forall name, name ∈ names -> name ∉ Server.exclude_cols) /\
     (forall name,
         is_Some (medians !! name) <->
         exists col, col ∈ Server.numeric_cols full /\ Server.col_name col = name) /\
     (schema head = schema full ->
      forall name, name ∈ names -> is_Some (medians !! name))) /\
  (Server.merged_battery_data_csv d = None ->
   Server.feature_medians g' = Some ∅).
Proof.
  intros Hrun. pose proof (load_outcome d g) as H. rewrite Hrun in H. clear Hrun.
  destruct d as [[[m|e]|] [[s|e']|] [[[info|]|e'']|] [[[head|e3] [full|e4]]|]];
    cbn [Server.battery_health_model_pkl Server.feature_scaler_pkl
         Server.model_info_json Server.merged_battery_data_csv] in *;
    try discriminate; injection H as ->;
    (split; [|by intros]); try discriminate.
  intros _. eexists head, full, _, _. split; [reflexivity|].
  split; [reflexivity|]. split; [reflexivity|]. split; [reflexivity|].
  split; [|split].
  - intros name Hin. by apply numeric_cols_names in Hin as [? _].
  - intros name. apply medians_dict_lookup.
  - intros Hschema name Hin. apply medians_dict_lookup.
    rewrite (numeric_cols_schema _ _ Hschema) in Hin.
    by apply numeric_cols_names in Hin as [_ ?].
Qed.

(* ===================================================================== *)
(** ** The API seen from [test_api.py] and from the dashboard *)
(* ===================================================================== *)

(** X19.  The verdicts of the test script against a server that can be
    reached.  With the model and the scaler loaded, [test_invalid_input] and
    [test_out_of_range_values] pass whatever the model, the scaler and the
    catalog are, and [test_predict] passes exactly when none of the three
    stages raises on the sample.  With the model or the scaler missing, the
    three tests of [/predict] fail, the two negative ones included, because
    the 500 of the missing model comes before any validation.
    [test_health_check] passes in both cases: it does not look at the status
    code nor at the two flags. *)
Theorem api_test_verdicts
    fos fpow ndarray py_round names medians (g : Server.globals ndarray) :
  let post := http_predict fos fpow ndarray (Server.scaler g) (Server.model g)
                           py_round names medians in
  test_health_check (http_health g) = true /\
  match Server.scaler g, Server.model g with
  | Some scaler_transform, Some model_predict =>
      test_invalid_input post = true /\
      test_out_of_range_values post = true /\
      (test_predict post = true <->
       stage_error fos fpow scaler_transform model_predict names medians
                   sample_input = None)
  | _, _ =>
      test_predict post = false /\
      test_invalid_input post = false /\
      test_out_of_range_values post = false
  end.
Proof.
  intros post. split; [reflexivity|]. subst post.
  destruct (Server.scaler g) as [s|], (Server.model g) as [m|];
    try (by repeat split).
  destruct (test_bodies_validated fos) as (Hok & (m1 & Hmiss) & (m2 & Hout)).
  unfold test_invalid_input, test_out_of_range_values, test_predict,
    posts_and_expects, http_predict.
  rewrite (predict_rejected _ _ _ _ _ _ _ _ true _ _ Hmiss),
    (predict_rejected _ _ _ _ _ _ _ _ true _ _ Hout).
  split; [reflexivity|]. split; [reflexivity|].
  destruct (predict_accepted fos fpow ndarray s m py_round names medians
              sample_input Hok)
    as [(msg & -> & ->)|(rul & pct & input & -> & _ & _ & _ & ->)];
    by split.
Qed.



(* ===================================================================== *)
(** ** The dashboard: recommendations, gauge and progress bar *)
(* ===================================================================== *)

(** X22.  On numbers, [get_health_recommendations] returns at most five
    messages, and each of its nine messages is in the list exactly under its
    own condition: a temperature above 45, or else below 0; a voltage below
    3.2, or else above 4.3; a current above 5; more than 1000 cycles; a
    health below 40, or else below 60, or else at least 80.  So a health of
    80 or more always brings a message: the list is empty, and the
    dashboard shows "All parameters are within optimal ranges", only for a
    health that is neither below 60 nor at least 80.  A temperature that is
    not a number makes the first comparison raise a [TypeError]. *)
Theorem recommendations_name_what_is_off data health :
  (forall t v c n h,
      as_num (shown_temperature data) = Some t ->
      as_num (shown_voltage data) = Some v ->
      as_num (shown_current data) = Some c ->
      as_num (shown_cycles data) = Some n ->
      as_num health = Some h ->
      exists recs,
        get_health_recommendations data health = Ok recs /\
        (length recs <= 5)%nat /\
        mentions recs rec_high_temperature = num_gt t (NInt 45) /\
        mentions recs rec_low_temperature
        = negb (num_gt t (NInt 45)) && num_lt t (NInt 0) /\
        mentions recs rec_low_voltage = num_lt v (NFloat (F64.lit 32 1)) /\
        mentions recs rec_high_voltage
        = negb (num_lt v (NFloat (F64.lit 32 1)))
          && num_gt v (NFloat (F64.lit 43 1)) /\
        mentions recs rec_high_current = num_gt c (NInt 5) /\
        mentions recs rec_high_cycles = num_gt n (NInt 1000) /\
        mentions recs rec_critical = num_lt h (NInt 40) /\
        mentions recs rec_declining
        = negb (num_lt h (NInt 40)) && num_lt h (NInt 60) /\
        mentions recs rec_excellent
        = negb (num_lt h (NInt 40)) && negb (num_lt h (NInt 60))
          && num_ge h (NInt 80) /\
        (recs = [] -> num_lt h (NInt 60) = false /\ num_ge h (NInt 80) = false)) /\
  (as_num (shown_temperature data) = None ->
   get_health_recommendations data health
   = Raise (compare_type_error ">" (shown_temperature data) (NInt 45))).
Proof.
  split.
  - intros t v c n h Ht Hv Hc Hn Hh. exists (advice t v c n h).
    split; [by apply get_health_recommendations_numbers|].
    destruct (advice_mentions t v c n h)
      as (Hlen & H1 & H2 & H3 & H4 & H5 & H6 & H7 & H8 & H9).
    repeat (split; [assumption|]).
    intros Hnil. rewrite Hnil in H7, H8, H9. cbn in H7, H8, H9.
    destruct (num_lt h (NInt 40)); [discriminate|].
    destruct (num_lt h (NInt 60)); [discriminate|].
    by destruct (num_ge h (NInt 80)).
  - intros Hnone. unfold get_health_recommendations.
    fold (shown_temperature data). unfold py_gt. by rewrite Hnone.
Qed.

(** X23.  For a health that is a number, the gauge and the progress bar
    are drawn in the same colour, and the gauge shows the value it was
    given; for a health in [0, 100], the range the API answers in, that
    colour is the colour of a band of the gauge that holds the value, so the
    bar of the gauge ends in a band of its own colour. *)
Theorem gauge_and_bar_share_the_band_colour py_str format_1f health h :
  as_num health = Some h ->
  exists fig html,
    create_battery_health_gauge health = Ok fig /\
    create_progress_bar py_str format_1f health = Ok html /\
    fig_value fig = health /\
    contains ("background-color: " ++ fig_bar_color fig ++ ";") html = true /\
    (ordered health ->
     num_le (NInt 0) h = true -> num_le h (NInt 100) = true ->
     exists step,
       In step (fig_steps fig) /\ step_color step = fig_bar_color fig /\
       in_step health step).
Proof.
  intros Hh.
  assert (Hord : forall z, ordered health ->
                           num_ge h (NInt z) = false -> num_le h (NInt z) = true).
  { intros z (h' & Hh' & Hnan) Hge. rewrite Hh in Hh'. injection Hh' as <-.
    rewrite num_ge_not_lt in Hge by done. apply num_lt_le.
    by destruct (num_lt h (NInt z)). }
  assert (Hle : forall z, num_ge h (NInt z) = true -> num_le (NInt z) h = true)
    by (intros z; by rewrite num_ge_le).
  assert (Hstep : forall lo hi,
             num_le (NInt lo) h = true -> num_le h (NInt hi) = true ->
             forall colour, in_step health (GaugeStep (lo, hi) colour)).
  { intros lo hi Hlo Hhi colour. by exists h. }
  unfold create_battery_health_gauge, create_progress_bar.
  rewrite !(py_ge_num _ _ _ Hh). cbn [rbind].
  destruct (num_ge h (NInt 80)) eqn:G80; cbn [rbind];
    [|destruct (num_ge h (NInt 60)) eqn:G60; cbn [rbind];
      [|destruct (num_ge h (NInt 40)) eqn:G40; cbn [rbind]]];
    (eexists _, _; split; [reflexivity|]; split; [reflexivity|];
     split; [reflexivity|]; split; [by vm_compute|];
     cbn [fig_steps fig_bar_color]; intros Ho H0 H100).
  - exists (GaugeStep (80, 100) "#28a745"). split; [simpl; tauto|]. auto.
  - exists (GaugeStep (60, 80) "#ffc107"). split; [simpl; tauto|]. auto.
  - exists (GaugeStep (40, 60) "#fd7e14"). split; [simpl; tauto|]. auto.
  - exists (GaugeStep (0, 40) "#dc3545"). split; [simpl; tauto|]. auto.
Qed.

(** X24.  The status in the gauge's title goes with the health message of
    [get_health_recommendations], for every health that is a number and no
    NaN: "Poor" with the critically-low message, "Fair" with the declining
    one, "Excellent" with the excellent one, and "Good" with none of the
    three.  For a NaN the two part: the gauge says "Poor" and no health
    message is given. *)
Theorem gauge_status_matches_advice health data fig recs :
  create_battery_health_gauge health = Ok fig ->
  get_health_recommendations data health = Ok recs ->
  (ordered health ->
   (fig_title_text fig = "Battery Health: Poor"%string
    <-> mentions recs rec_critical = true) /\
   (fig_title_text fig = "Battery Health: Fair"%string
    <-> mentions recs rec_declining = true) /\
   (fig_title_text fig = "Battery Health: Excellent"%string
    <-> mentions recs rec_excellent = true) /\
   (fig_title_text fig = "Battery Health: Good"%string
    <-> forallb (fun msg => negb (mentions recs msg)) health_messages = true)) /\
  (health = PFloat F64.nan ->
   fig_title_text fig = "Battery Health: Poor"%string /\
   forallb (fun msg => negb (mentions recs msg)) health_messages = true).
Proof.
  intros Hfig Hrecs.
  destruct (get_health_recommendations_ok _ _ _ Hrecs)
    as (t & v & c & n & h & Ht & Hv & Hc & Hn & Hh).
  rewrite (get_health_recommendations_numbers _ _ _ _ _ _ _ Ht Hv Hc Hn Hh)
    in Hrecs.
  injection Hrecs as <-.
  destruct (advice_mentions t v c n h)
    as (_ & _ & _ & _ & _ & _ & _ & H7 & H8 & H9).
  unfold health_messages. cbn [forallb]. rewrite H7, H8, H9. clear H7 H8 H9.
  revert Hfig. unfold create_battery_health_gauge.
  rewrite !(py_ge_num _ _ _ Hh). cbn [rbind].
  assert (M1 : num_lt h (NInt 40) = true -> num_lt h (NInt 60) = true)
    by (apply num_lt_const_mono; lia).
  assert (M2 : num_ge h (NInt 80) = true -> num_ge h (NInt 60) = true)
    by (apply num_ge_const_mono; lia).
  assert (M3 : num_ge h (NInt 60) = true -> num_ge h (NInt 40) = true)
    by (apply num_ge_const_mono; lia).
  assert (Hord : ordered health ->
                 num_ge h (NInt 40) = negb (num_lt h (NInt 40)) /\
                 num_ge h (NInt 60) = negb (num_lt h (NInt 60))).
  { intros (h' & Hh' & Hnan). rewrite Hh in Hh'. injection Hh' as <-.
    by rewrite !num_ge_not_lt. }
  assert (Hnan : health = PFloat F64.nan ->
                 num_ge h (NInt 80) = false /\ num_ge h (NInt 60) = false /\
                 num_ge h (NInt 40) = false /\ num_lt h (NInt 40) = false /\
                 num_lt h (NInt 60) = false).
  { intros ->. injection Hh as <-. by vm_compute. }
  set (g80 := num_ge h (NInt 80)) in *. set (g60 := num_ge h (NInt 60)) in *.
  set (g40 := num_ge h (NInt 40)) in *. set (l40 := num_lt h (NInt 40)) in *.
  set (l60 := num_lt h (NInt 60)) in *.
  clearbody g80 g60 g40 l40 l60.
  destruct g80, g60, g40, l40, l60; cbn [rbind negb andb];
    intros [= <-]; cbn [fig_title_text];
    try (discriminate (M1 eq_refl)); try (discriminate (M2 eq_refl));
    try (discriminate (M3 eq_refl));
    (split;
     [ intros Ho; destruct (Hord Ho) as [E40 E60]; try discriminate;
       repeat split; intros; try done; try discriminate
     | intros Hn'; destruct (Hnan Hn') as (? & ? & ? & ? & ?);
       try discriminate; by split ]).
Qed.

(* ===================================================================== *)
(** ** The verdicts and answers at the samples *)
(* ===================================================================== *)

Lemma sample_prefix_passes data (fields : list string) :
  forallb (fun g => match check_field sample_float_of_str data g with
                    | Ok None => true
                    | _ => false
                    end) fields = true ->
  forall g, g ∈ fields -> check_field sample_float_of_str data g = Ok None.
Proof.
  intros Hall g Hg. rewrite forallb_forall in Hall.
  apply list_elem_of_In in Hg. specialize (Hall g Hg).
  by destruct (check_field sample_float_of_str data g) as [[]|].
Defined.

(** X2 at the sample with a state of charge of 150: the four fields before
    it pass, and the message is the one of [state_of_charge]. *)
Lemma first_failing_field_decides_witness :
  validate_input sample_float_of_str high_charge_input
  = Ok (false, Some "state_of_charge must be between 0 and 100"%string).
Proof.
  pose proof (first_failing_field_decides sample_float_of_str high_charge_input
                ["battery_temperature"; "voltage"; "current"; "charging_cycles"]%string
                "state_of_charge" [] (PInt 150) eq_refl) as H.
  apply H.
  - vm_compute. reflexivity.
  - apply sample_prefix_passes. vm_compute. reflexivity.
  - vm_compute. reflexivity.
  - vm_compute. reflexivity.
Defined.

(** X3 at the valid sample: the voltage that was accepted is in range. *)
Lemma accepted_fields_are_checked_witness :
  exists raw x,
    sample_input !! "voltage" = Some raw /\
    py_float sample_float_of_str raw = Ok x /\
    (F64.is_nan x = false -> in_documented_range "voltage" x = true).
Proof.
  apply (accepted_fields_are_checked sample_float_of_str sample_input).
  - vm_compute. reflexivity.
  - apply list_elem_of_In. simpl. tauto.
Defined.

(** X4 at the sample with a cycle count of [10^400]. *)
Lemma oversize_integer_is_a_server_error_witness :
  validate_input sample_float_of_str huge_cycles_input
  = Raise (Exn OverflowError "int too large to convert to float") /\
  predict sample_float_of_str sample_float_pow unit sample_scaler sample_model
          sample_round sample_names sample_medians
          (Request true (Ok (Some huge_cycles_input)))
  = error_response "Unexpected error: int too large to convert to float" 500.
Proof.
  apply (oversize_integer_is_a_server_error sample_float_of_str sample_float_pow
           unit (fun _ => Ok tt) (fun _ => Ok (PFloat (F64.lit 8505 1)))
           sample_round sample_names sample_medians huge_cycles_input
           ["battery_temperature"; "voltage"; "current"]%string
           "charging_cycles" ["state_of_charge"]%string huge_int).
  - reflexivity.
  - vm_compute. reflexivity.
  - apply sample_prefix_passes. vm_compute. reflexivity.
  - vm_compute. reflexivity.
  - vm_compute. reflexivity.
Defined.

(** X8 at the valid sample: no stage raises and the answer is the 200
    payload with the five fields echoed. *)
Lemma predict_accepted_answer_witness :
  exists rul pct input,
    predict_stages sample_float_of_str sample_float_pow (fun _ => Ok tt)
                   (fun _ : unit => Ok (PFloat (F64.lit 8505 1)))
                   sample_names sample_medians sample_input = Ok rul /\
    health_percentage rul = Ok pct /\
    echoed sample_input input /\
    predict sample_float_of_str sample_float_pow unit sample_scaler sample_model
            sample_round sample_names sample_medians
            (Request true (Ok (Some sample_input)))
    = Response (SuccessPayload (sample_round rul 2) (sample_round pct 2) input) 200.
Proof.
  assert (Hvalid : validate_input sample_float_of_str sample_input = Ok (true, None))
    by (vm_compute; reflexivity).
  pose proof (predict_accepted_answer sample_float_of_str sample_float_pow unit
                (fun _ => Ok tt) (fun _ => Ok (PFloat (F64.lit 8505 1)))
                sample_round sample_names sample_medians sample_input Hvalid) as H.
  cbv zeta in H.
  assert (E : stage_error sample_float_of_str sample_float_pow (fun _ => Ok tt)
                (fun _ : unit => Ok (PFloat (F64.lit 8505 1)))
                sample_names sample_medians sample_input = None)
    by (vm_compute; reflexivity).
  rewrite E in H. exact H.
Defined.

(* ===================================================================== *)
(** ** The entries of the vector at the samples *)
(* ===================================================================== *)









(** X15 at the empty dictionary: no exception, 0.0 for the temperature
    feature, which has no median, and the median 8000 for the charge time. *)
Lemma no_field_gives_the_fallbacks_witness :
  exists row,
    fst (prepare_features sample_float_of_str sample_float_pow
           (State sample_names sample_medians ∅ ∅)) = Ok row /\
    row !! 0%nat = Some (PFloat (F64.of_Z 0)) /\
    row !! 2%nat = Some (PFloat (F64.of_Z 8000)).
Proof.
  destruct (no_field_gives_the_fallbacks sample_float_of_str sample_float_pow
              (State sample_names sample_medians ∅ ∅))
    as (row & st' & Hrun & Hentries).
  - intros field _. apply lookup_empty.
  - exists row. split; [by rewrite Hrun|].
    rewrite (Hentries 0%nat Exp_Temperature eq_refl),
      (Hentries 2%nat "Charge Time (s)"%string eq_refl).
    + vm_compute. split; reflexivity.
    + apply in_list_not_elem. vm_compute. reflexivity.
    + apply in_list_not_elem. vm_compute. reflexivity.
Defined.

(* ===================================================================== *)
(** ** Start-up, client and dashboard at the samples *)
(* ===================================================================== *)

(** X18 at a disk without [model_info.json] whose dataset has the columns
    [Exp_Temperature] (float), [RUL] (int), [Exp_Cell_Type] (text) and
    [Cycle_Index] (int): the catalog is the first and the last, and both
    have a median. *)
Lemma inferred_catalog_and_medians_witness :
  exists names medians,
    Server.feature_names
      (snd (Server.load_model_and_scaler sample_disk Server.no_globals))
    = Some names /\
    Server.feature_medians
      (snd (Server.load_model_and_scaler sample_disk Server.no_globals))
    = Some medians /\
    names = [Exp_Temperature; Cycle_Index] /\
    (forall name, name ∈ names -> is_Some (medians !! name)).
Proof.
  destruct (inferred_catalog_and_medians sample_disk Server.no_globals
              (snd (Server.load_model_and_scaler sample_disk Server.no_globals))
              eq_refl) as [Hinferred _].
  destruct (Hinferred eq_refl)
    as (head & full & names & medians & Hdata & Hnames & Hmedians & Heq & _ & _ & Hcover).
  injection Hdata as <- <-.
  exists names, medians. split; [exact Hnames|]. split; [exact Hmedians|].
  split; [rewrite Heq; reflexivity|]. by apply Hcover.
Defined.


(** X23 at the health of the sample answer, 70.875: yellow, the colour of
    the band from 60 to 80. *)
Lemma gauge_and_bar_share_the_band_colour_witness :
  exists fig html,
    create_battery_health_gauge (PFloat (F64.lit 70875 3)) = Ok fig /\
    create_progress_bar (fun _ => EmptyString) (fun _ => EmptyString)
                        (PFloat (F64.lit 70875 3)) = Ok html /\
    fig_bar_color fig = "#ffc107"%string /\
    contains "background-color: #ffc107;" html = true.
Proof.
  destruct (gauge_and_bar_share_the_band_colour
              (fun _ => EmptyString) (fun _ => EmptyString)
              (PFloat (F64.lit 70875 3)) (NFloat (F64.lit 70875 3)) eq_refl)
    as (fig & html & Hfig & Hhtml & _ & Hsame & _).
  exists fig, html. split; [exact Hfig|]. split; [exact Hhtml|].
  assert (Hcolour : fig_bar_color fig = "#ffc107"%string).
  { vm_compute in Hfig. by injection Hfig as <-. }
  split; [exact Hcolour|]. by rewrite Hcolour in Hsame.
Defined.

(** X24 at a health of 30 with a temperature of 50 and 1500 cycles: the
    gauge says "Poor" and the critically-low message is given. *)
Lemma gauge_status_matches_advice_witness :
  exists fig recs,
    create_battery_health_gauge (PInt 30) = Ok fig /\
    get_health_recommendations hot_worn_input (PInt 30) = Ok recs /\
    fig_title_text fig = "Battery Health: Poor"%string /\
    mentions recs rec_critical = true.
Proof.
  eexists _, _. split; [vm_compute; reflexivity|].
  split; [vm_compute; reflexivity|].
  split; [reflexivity|].
  refine (proj1 (proj1 (proj1 (gauge_status_matches_advice (PInt 30)
                                 hot_worn_input _ _ _ _) _)) _).
  - vm_compute. reflexivity.
  - vm_compute. reflexivity.
  - exists (NInt 30). by split.
  - reflexivity.
Defined.
